(** * Adaptive difficulty engine with a decaying performance score

    A shallow embedding of [adaptive_engine.py] (class [AdaptiveEngine]) and of
    [puzzle_generator.py] (class [PuzzleGenerator]), with the properties of the
    P-Score update rule, of the difficulty transitions and of the status query.

    Python's [float] is IEEE 754 binary64.  The engine is written once, over an
    interface [PyFloat] of the arithmetic it uses, and read at two instances:
    Rocq's primitive binary64 floats (the program as it runs) and the rationals
    (the exact arithmetic in which the P-Score rules are documented). *)

From Stdlib Require Import ZArith QArith Qround Floats Bool List Lia Lqa.
From stdpp Require Import base strings gmap pretty.
Import ListNotations.

(** ** Python values shared by the two classes *)

(** The exceptions the modelled code can raise. *)
Inductive exn : Type :=
| IndexError
| ValueError (msg : string).

(** The outcome of a call: a value, or a raised exception. *)
Inductive outcome (A : Type) : Type :=
| Return (a : A)
| Raise (e : exn).

Arguments Return {A} a.
Arguments Raise {A} e.

(** A method of an object whose attributes are [S]: it reads and writes
    [self], and returns or raises. *)
Definition method (S A : Type) : Type := S -> outcome A * S.

#[export] Instance method_ret {S} : MRet (method S) :=
  fun A a self => (Return a, self).

#[export] Instance method_bind {S} : MBind (method S) :=
  fun A B k m self =>
    match m self with
    | (Return a, self') => k a self'
    | (Raise e, self') => (Raise e, self')
    end.

#[export] Instance method_throw {S} : MThrow exn (method S) :=
  fun A e self => (Raise e, self).

(** Reading an attribute, and assigning to attributes. *)
Definition attr {S A} (field : S -> A) : method S A :=
  fun self => (Return (field self), self).

Definition assign {S} (upd : S -> S) : method S unit :=
  fun self => (Return tt, upd self).

(** [l[i]] on a Python list: a negative index counts from the end, and an
    index outside [-len(l), len(l))] raises [IndexError]. *)
Definition py_index {A : Type} (l : list A) (i : Z) : option A :=
  let n := Z.of_nat (List.length l) in
  let j := (if i <? 0 then i + n else i)%Z in
  if ((j <? 0) || (n <=? j))%Z then None else nth_error l (Z.to_nat j).

(** ** The arithmetic of Python floats *)

(** What the engine does with numbers: unsigned literals (an [int] operand
    of a float operation is converted first), unary [-], [+], [-], [*], the
    comparison [<=] ([<] is there to state the properties), and the builtin
    [round(x, ndigits)] with [ndigits >= 0]. *)
Class PyFloat (F : Type) : Type := {
  lit : Q -> F;
  fopp : F -> F;
  fadd : F -> F -> F;
  fsub : F -> F -> F;
  fmul : F -> F -> F;
  fleb : F -> F -> bool;
  fltb : F -> F -> bool;
  py_round : F -> N -> F
}.

(** [a >= b] is [b <= a], also on NaN, where both are false. *)
Definition fgeb {F} `{PyFloat F} (a b : F) : bool := fleb b a.

Declare Scope pyfloat_scope.
Delimit Scope pyfloat_scope with py.
Notation "- x" := (fopp x) : pyfloat_scope.
Infix "+" := fadd : pyfloat_scope.
Infix "-" := fsub : pyfloat_scope.
Infix "*" := fmul : pyfloat_scope.
Infix "<=?" := fleb : pyfloat_scope.
Infix "<?" := fltb : pyfloat_scope.
Infix ">=?" := fgeb (at level 70) : pyfloat_scope.

(** Rounding a rational to the nearest integer, ties to the even one. *)
Definition round_half_even (q : Q) : Z :=
  let f := Qfloor q in
  match Qcompare (q - inject_Z f)%Q (1 # 2)%Q with
  | Lt => f
  | Gt => (f + 1)%Z
  | Eq => if Z.even f then f else (f + 1)%Z
  end.

(** *** Exact arithmetic *)

Definition Q_round (q : Q) (ndigits : N) : Q :=
  let p := (10 ^ Z.of_N ndigits)%Z in
  Qred (inject_Z (round_half_even (q * inject_Z p)%Q) / inject_Z p)%Q.

#[export] Instance PyFloat_Q : PyFloat Q := {
  lit q := q;
  fopp := Qopp;
  fadd := Qplus;
  fsub := Qminus;
  fmul := Qmult;
  fleb := Qle_bool;
  fltb a b := negb (Qle_bool b a);
  py_round := Q_round
}.

(** *** Binary64 *)

(** An integer as the nearest binary64 value. *)
Definition float_of_Z (z : Z) : float :=
  SF2Prim (binary_normalize prec emax z 0 false).

(** A decimal literal [n/d]: both parts are exact in binary64 for the literals
    of the source, and IEEE division rounds their quotient to nearest. *)
Definition float_lit (q : Q) : float :=
  (float_of_Z (Qnum q) / float_of_Z (Zpos (Qden q)))%float.

(** The exact value of a finite binary64 number, sign apart. *)
Definition magnitude (m : positive) (e : Z) : Q :=
  match e with
  | Zneg k => (Zpos m # (2 ^ k))%Q
  | _ => inject_Z (Zpos m * 2 ^ e)
  end.

(** [round(x, ndigits)] on a float: the exact value of [x] is rounded to
    [ndigits] decimals, ties to even, and the decimal result is converted to
    the nearest binary64 value; the sign of [x] is kept, and infinities and NaN
    are returned as they are. *)
Definition float_round (x : float) (ndigits : N) : float :=
  match Prim2SF x with
  | S754_finite s m e =>
      let p := Z.to_pos (10 ^ Z.of_N ndigits) in
      match round_half_even (magnitude m e * inject_Z (Zpos p))%Q with
      | Zpos n =>
          SF2Prim (SFdiv prec emax (S754_finite s n 0) (S754_finite false p 0))
      | _ => SF2Prim (S754_zero s)
      end
  | _ => x
  end.

#[export] Instance PyFloat_binary64 : PyFloat float := {
  lit := float_lit;
  fopp := PrimFloat.opp;
  fadd := PrimFloat.add;
  fsub := PrimFloat.sub;
  fmul := PrimFloat.mul;
  fleb := PrimFloat.leb;
  fltb := PrimFloat.ltb;
  py_round := float_round
}.

(** ** [adaptive_engine.py]: class [AdaptiveEngine] *)

Section Engine.

Context {F : Type} `{PyFloat F}.

(** The attributes [__init__] gives an instance. *)
Record AdaptiveEngine : Type := {
  p_score : F;
  difficulty_levels : list string;
  current_difficulty_index : Z;
  decay_factor : F
}.

Definition __init__ : AdaptiveEngine := {|
  p_score := lit 0;
  difficulty_levels := ["Easy"; "Medium"; "Hard"];
  current_difficulty_index := 0;
  decay_factor := lit (9 # 10)
|}.

Definition set_p_score (x : F) (self : AdaptiveEngine) : AdaptiveEngine := {|
  p_score := x;
  difficulty_levels := difficulty_levels self;
  current_difficulty_index := current_difficulty_index self;
  decay_factor := decay_factor self
|}.

Definition set_current_difficulty_index (i : Z) (self : AdaptiveEngine)
  : AdaptiveEngine := {|
  p_score := p_score self;
  difficulty_levels := difficulty_levels self;
  current_difficulty_index := i;
  decay_factor := decay_factor self
|}.

(** The result dictionary of [update_performance]. *)
Record UpdateResult : Type := {
  old_score : F;
  new_score : F;
  score_change : F;
  old_difficulty : string;
  new_difficulty : string;
  transition_occurred : bool;
  rationale : string
}.

(** The dictionary of [get_status]. *)
Record Status : Type := {
  status_p_score : F;
  status_difficulty : string;
  status_difficulty_index : Z;
  increase_threshold : F;
  decrease_threshold : F
}.

(** The property [current_difficulty]. *)
Definition current_difficulty : method AdaptiveEngine string :=
  levels ← attr difficulty_levels;
  i ← attr current_difficulty_index;
  match py_index levels i with
  | Some d => mret d
  | None => mthrow IndexError
  end.

Definition HighFluency : string :=
  "High Fluency - Correct answer with quick response".
Definition Accuracy : string :=
  "Accuracy - Correct but slow response".
Definition Inaccurate : string :=
  "Inaccurate - Incorrect answer indicates knowledge gap".

(** The reward or penalty of the turn: the [if is_correct] statement of
    [update_performance], which updates [p_score] and picks the rationale. *)
Definition score_update (is_correct : bool) (response_time : F)
  : method AdaptiveEngine string :=
  if is_correct then
    if (response_time <=? lit 5)%py then
      p ← attr p_score;
      assign (set_p_score (p + lit 2)%py);;
      mret HighFluency
    else
      p ← attr p_score;
      assign (set_p_score (p + lit 1)%py);;
      mret Accuracy
  else
    p ← attr p_score;
    assign (set_p_score (p - lit 3)%py);;
    mret Inaccurate.

(** [self.p_score *= self.decay_factor] *)
Definition apply_decay : method AdaptiveEngine unit :=
  p ← attr p_score;
  d ← attr decay_factor;
  assign (set_p_score (p * d)%py).

Definition _check_difficulty_transition : method AdaptiveEngine bool :=
  p ← attr p_score;
  i ← attr current_difficulty_index;
  levels ← attr difficulty_levels;
  if (p >=? lit 5)%py && (i <? Z.of_nat (List.length levels) - 1)%Z then
    assign (set_current_difficulty_index (i + 1)%Z);;
    assign (set_p_score (lit 0));;
    mret true
  else if (p <=? - lit 3)%py && (i >? 0)%Z then
    assign (set_current_difficulty_index (i - 1)%Z);;
    assign (set_p_score (lit 0));;
    mret true
  else
    mret false.

Definition update_performance (is_correct : bool) (response_time : F)
  : method AdaptiveEngine UpdateResult :=
  old_score ← attr p_score;
  old_difficulty ← current_difficulty;
  rationale ← score_update is_correct response_time;
  apply_decay;;
  transition_occurred ← _check_difficulty_transition;
  new_score ← attr p_score;
  d ← attr decay_factor;
  new_difficulty ← current_difficulty;
  mret {| old_score := old_score;
          new_score := new_score;
          score_change := (new_score - old_score * d)%py;
          old_difficulty := old_difficulty;
          new_difficulty := new_difficulty;
          transition_occurred := transition_occurred;
          rationale := rationale |}.

Definition get_status : method AdaptiveEngine Status :=
  p ← attr p_score;
  d ← current_difficulty;
  i ← attr current_difficulty_index;
  mret {| status_p_score := py_round p 2;
          status_difficulty := d;
          status_difficulty_index := i;
          increase_threshold := lit 5;
          decrease_threshold := (- lit 3)%py |}.

(** The calls a session makes on one engine, one per turn, as the driver of
    [main.py] does; an exception ends the session. *)
Fixpoint session (turns : list (bool * F))
  : method AdaptiveEngine (list UpdateResult) :=
  match turns with
  | [] => mret []
  | (is_correct, response_time) :: rest =>
      r ← update_performance is_correct response_time;
      rs ← session rest;
      mret (r :: rs)
  end.

End Engine.

Arguments AdaptiveEngine F : clear implicits.
Arguments UpdateResult F : clear implicits.
Arguments Status F : clear implicits.

(** ** [puzzle_generator.py]: class [PuzzleGenerator] *)

Module PuzzleGenerator.

(** The module [random]: its hidden generator is a sequence of raw draws and
    a position in it.  Every sequence is allowed, so a property proved for
    all of them holds whatever the generator produces. *)
Record Random : Type := {
  draws : nat -> N;
  cursor : nat
}.

Definition next_draw : method Random N :=
  fun g => (Return (draws g (cursor g)),
            {| draws := draws g; cursor := S (cursor g) |}).

(** [random.randint(a, b)]: an integer of [a..b], [ValueError] when the
    range is empty. *)
Definition randint (a b : Z) : method Random Z :=
  if (b <? a)%Z then mthrow (ValueError "empty range for randrange()")
  else k ← next_draw; mret (a + Z.of_N k mod (b - a + 1))%Z.

(** [random.choice(seq)]: an element of [seq], [IndexError] when it is
    empty. *)
Definition choice {A} (seq : list A) : method Random A :=
  match seq with
  | [] => mthrow IndexError
  | _ =>
      k ← next_draw;
      match nth_error seq (N.to_nat k mod List.length seq) with
      | Some x => mret x
      | None => mthrow IndexError
      end
  end.

Record Puzzle : Type := {
  question : string;
  answer : Z;
  difficulty : string
}.

(** [str(n)] of an integer, as an f-string writes it. *)
Definition str (n : Z) : string := pretty n.

Definition _generate_easy_puzzle : method Random Puzzle :=
  operation ← choice ["+"; "-"];
  if String.eqb operation "+" then
    a ← randint 1 9;
    b ← randint 1 9;
    mret {| question := str a +:+ " + " +:+ str b;
            answer := (a + b)%Z;
            difficulty := "Easy" |}
  else
    a ← randint 5 9;
    b ← randint 1 a;
    mret {| question := str a +:+ " - " +:+ str b;
            answer := (a - b)%Z;
            difficulty := "Easy" |}.

Definition _generate_medium_puzzle : method Random Puzzle :=
  operation ← choice ["+"; "-"; "*"];
  if String.eqb operation "+" then
    a ← randint 10 50;
    b ← randint 10 50;
    mret {| question := str a +:+ " + " +:+ str b;
            answer := (a + b)%Z;
            difficulty := "Medium" |}
  else if String.eqb operation "-" then
    a ← randint 20 99;
    b ← randint 10 a;
    mret {| question := str a +:+ " - " +:+ str b;
            answer := (a - b)%Z;
            difficulty := "Medium" |}
  else
    a ← randint 2 9;
    b ← randint 2 12;
    mret {| question := str a +:+ " × " +:+ str b;
            answer := (a * b)%Z;
            difficulty := "Medium" |}.

Definition _generate_hard_puzzle : method Random Puzzle :=
  puzzle_type ← choice ["multi_step"; "large_numbers"; "division"];
  '(question, answer) ←
    (if String.eqb puzzle_type "multi_step" then
       a ← randint 5 15;
       b ← randint 5 15;
       c ← randint 2 8;
       mret ("(" +:+ str a +:+ " + " +:+ str b +:+ ") × " +:+ str c,
             ((a + b) * c)%Z)
     else if String.eqb puzzle_type "large_numbers" then
       operation ← choice ["+"; "-"];
       if String.eqb operation "+" then
         a ← randint 100 500;
         b ← randint 100 500;
         mret (str a +:+ " + " +:+ str b, (a + b)%Z)
       else
         a ← randint 200 999;
         b ← randint 100 a;
         mret (str a +:+ " - " +:+ str b, (a - b)%Z)
     else
       quotient ← randint 5 20;
       divisor ← randint 3 12;
       let dividend := (quotient * divisor)%Z in
       mret (str dividend +:+ " ÷ " +:+ str divisor, quotient));
  mret {| question := question;
          answer := answer;
          difficulty := "Hard" |}.

(** [self.operations], as [__init__] builds it. *)
Definition operations : gmap string (method Random Puzzle) :=
  <["Easy" := _generate_easy_puzzle]>
  (<["Medium" := _generate_medium_puzzle]>
  (<["Hard" := _generate_hard_puzzle]> ∅)).

Definition generate_puzzle (difficulty : string) : method Random Puzzle :=
  match operations !! difficulty with
  | None => mthrow (ValueError ("Unknown difficulty: " +:+ difficulty))
  | Some generate => generate
  end.

(** A generator to run examples with: its n-th raw draw is 7n + 3. *)
Definition sample_random : Random :=
  {| draws := fun n => N.of_nat (7 * n + 3); cursor := 0 |}.

End PuzzleGenerator.

(** ** More of Python: true division, sums, extrema and slices *)

(** The exceptions of the arithmetic and of the builtins used below. *)
Inductive py_error : Type :=
| ZeroDivisionError
| OverflowError
| EmptySequence
| Raised (e : exn).

Inductive tried (A : Type) : Type :=
| Done (a : A)
| Failed (e : py_error).

Arguments Done {A} a.
Arguments Failed {A} e.

(** A method that can raise those. *)
Definition raising (S A : Type) : Type := S -> tried A * S.

#[export] Instance raising_ret {S} : MRet (raising S) :=
  fun A a self => (Done a, self).

#[export] Instance raising_bind {S} : MBind (raising S) :=
  fun A B k m self =>
    match m self with
    | (Done a, self') => k a self'
    | (Failed e, self') => (Failed e, self')
    end.

#[export] Instance raising_throw {S} : MThrow py_error (raising S) :=
  fun A e self => (Failed e, self).

(** A pure operation that returns or raises, inside a method. *)
Definition evaluate {S A} (x : tried A) : raising S A :=
  fun self => (x, self).

Definition read {S A} (field : S -> A) : raising S A :=
  fun self => (Done (field self), self).

Definition write {S} (upd : S -> S) : raising S unit :=
  fun self => (Done tt, upd self).

(** Division and the sum of floats: [a / b] on two [int]s, [x / y] on two
    floats, the conversion of an [int] operand to a float, and the builtin
    [sum] over floats. *)
Class PyStatistics (F : Type) `{PyFloat F} : Type := {
  int_truediv : Z -> Z -> tried F;
  float_truediv : F -> F -> tried F;
  float_of_int : Z -> tried F;
  fsum : list F -> F
}.

#[export] Instance PyStatistics_Q : PyStatistics Q := {
  int_truediv a b :=
    if (b =? 0)%Z then Failed ZeroDivisionError
    else Done (inject_Z a / inject_Z b)%Q;
  float_truediv x y :=
    if Qeq_bool y 0 then Failed ZeroDivisionError else Done (x / y)%Q;
  float_of_int z := Done (inject_Z z);
  fsum l := fold_left Qplus l 0%Q
}.

(** An integer as a number of [SpecFloat], before any rounding. *)
Definition Z2SF (z : Z) : spec_float :=
  match z with
  | Z0 => S754_zero false
  | Zpos p => S754_finite false p 0
  | Zneg p => S754_finite true p 0
  end.

(** In binary64 [a / b] on [int]s is the quotient rounded once, and it
    overflows with an exception; [x / y] raises on a zero divisor of either
    sign; [sum] adds from left to right from the [int] 0, as the builtin is
    documented (CPython from 3.12 on compensates the rounding errors of
    this sum; no property below depends on how [sum] rounds). *)
#[export] Instance PyStatistics_binary64 : PyStatistics float := {
  int_truediv a b :=
    if (b =? 0)%Z then Failed ZeroDivisionError
    else match SFdiv prec emax (Z2SF a) (Z2SF b) with
         | S754_infinity _ => Failed OverflowError
         | q => Done (SF2Prim q)
         end;
  float_truediv x y :=
    if PrimFloat.eqb y 0 then Failed ZeroDivisionError
    else Done (x / y)%float;
  float_of_int z :=
    match binary_normalize prec emax z 0 false with
    | S754_infinity _ => Failed OverflowError
    | x => Done (SF2Prim x)
    end;
  fsum l := fold_left PrimFloat.add l 0%float
}.

(** [sum] over [int]s. *)
Definition sum_ints (l : list Z) : Z := fold_left Z.add l 0%Z.

(** [l[start:]]: a negative [start] counts from the end, and both ends are
    clipped to the list. *)
Definition py_slice_from {A : Type} (l : list A) (start : Z) : list A :=
  let n := Z.of_nat (List.length l) in
  let s := (if start <? 0 then Z.max (start + n) 0 else Z.min start n)%Z in
  skipn (Z.to_nat s) l.

(** [min(l)] and [max(l)]: the first item is kept until a later one is
    smaller, or greater; [ValueError] on an empty list. *)
Definition py_min {F} `{PyFloat F} (l : list F) : tried F :=
  match l with
  | [] => Failed EmptySequence
  | x :: rest =>
      Done (fold_left (fun m y => if (y <? m)%py then y else m) rest x)
  end.

Definition py_max {F} `{PyFloat F} (l : list F) : tried F :=
  match l with
  | [] => Failed EmptySequence
  | x :: rest =>
      Done (fold_left (fun m y => if (m <? y)%py then y else m) rest x)
  end.

(** ** [tracker.py]: class [PerformanceTracker] *)

Module PerformanceTracker.

Section Tracker.

Context {F : Type} `{PyFloat F} `{!PyStatistics F}.

(** The module [time]: the clock is a sequence of readings and a position
    in it; nothing is assumed of the readings. *)
Record Time : Type := {
  readings : nat -> F;
  reads : nat
}.

Record Attempt : Type := {
  timestamp : F;
  question : string;
  correct_answer : Z;
  user_answer : Z;
  response_time : F;
  is_correct : bool;
  difficulty : string;
  p_score_after : F;
  attempt_number : Z
}.

(** An entry of [difficulty_transitions]; its key [attempt_number] is
    [at_attempt_number] here and its key [timestamp] is [at_timestamp]. *)
Record Transition : Type := {
  at_attempt_number : Z;
  from_difficulty : string;
  to_difficulty : string;
  trigger_p_score : F;
  at_timestamp : F
}.

Record PerformanceTracker : Type := {
  session_start : F;
  attempts : list Attempt;
  difficulty_transitions : list Transition
}.

(** The state a method sees: the clock and the tracker. *)
Definition world : Type := (Time * PerformanceTracker)%type.

Definition time_time : raising world F :=
  fun w =>
    (Done (readings (fst w) (reads (fst w))),
     ({| readings := readings (fst w); reads := S (reads (fst w)) |}, snd w)).

Definition self_attr {A} (field : PerformanceTracker -> A) : raising world A :=
  read (fun w => field (snd w)).

Definition __init__ (clock : Time) : world :=
  ({| readings := readings clock; reads := S (reads clock) |},
   {| session_start := readings clock (reads clock);
      attempts := [];
      difficulty_transitions := [] |}).

Definition record_attempt (puzzle : PuzzleGenerator.Puzzle) (user_answer : Z)
    (response_time : F) (is_correct : bool) (engine_status : Status F)
  : raising world unit :=
  now ← time_time;
  start ← self_attr session_start;
  recorded ← self_attr attempts;
  let attempt :=
    {| timestamp := (now - start)%py;
       question := PuzzleGenerator.question puzzle;
       correct_answer := PuzzleGenerator.answer puzzle;
       user_answer := user_answer;
       response_time := response_time;
       is_correct := is_correct;
       difficulty := PuzzleGenerator.difficulty puzzle;
       p_score_after := status_p_score engine_status;
       attempt_number := (Z.of_nat (List.length recorded) + 1)%Z |} in
  write (fun w =>
    (fst w,
     {| session_start := session_start (snd w);
        attempts := attempts (snd w) ++ [attempt];
        difficulty_transitions := difficulty_transitions (snd w) |})).

Definition record_difficulty_transition (old_difficulty new_difficulty : string)
    (p_score : F) (attempt_number : Z) : raising world unit :=
  now ← time_time;
  start ← self_attr session_start;
  let transition :=
    {| at_attempt_number := attempt_number;
       from_difficulty := old_difficulty;
       to_difficulty := new_difficulty;
       trigger_p_score := p_score;
       at_timestamp := (now - start)%py |} in
  write (fun w =>
    (fst w,
     {| session_start := session_start (snd w);
        attempts := attempts (snd w);
        difficulty_transitions :=
          difficulty_transitions (snd w) ++ [transition] |})).

(** The dictionary of [get_session_summary], when there are attempts. *)
Record Summary : Type := {
  total_attempts : Z;
  correct_attempts : Z;
  accuracy_rate : F;
  avg_response_time : F;
  fast_responses : Z;
  fast_response_rate : F;
  difficulty_distribution : gmap string Z;
  n_difficulty_transitions : Z;
  final_p_score : F;
  p_score_range_min : F;
  p_score_range_max : F;
  session_duration : F
}.

(** The dictionary of [get_recent_performance], when there are attempts. *)
Record Recent : Type := {
  attempts_analyzed : Z;
  recent_accuracy : F;
  recent_correct : Z;
  trend : string
}.

(** Either dictionary, or the one with the single key [error]. *)
Inductive report (A : Type) : Type :=
| Error (error : string)
| Report (entries : A).

Arguments Error {A} error.
Arguments Report {A} entries.

(** [sum(1 for x in l if test(x))] *)
Definition count_ones {A} (test : A -> bool) (l : list A) : Z :=
  sum_ints (map (fun _ => 1%Z) (List.filter test l)).

(** The loop that fills [difficulty_counts]. *)
Definition count_difficulties (l : list Attempt) : gmap string Z :=
  fold_left
    (fun counts attempt =>
       let diff := difficulty attempt in
       <[diff := (default 0%Z (counts !! diff) + 1)%Z]> counts)
    l ∅.

Definition get_session_summary : raising world (report Summary) :=
  recorded ← self_attr attempts;
  match recorded with
  | [] => mret (Error "No attempts recorded")
  | _ =>
      let total_attempts := Z.of_nat (List.length recorded) in
      let correct_attempts := count_ones is_correct recorded in
      accuracy_rate ← evaluate (int_truediv correct_attempts total_attempts);
      let response_times := map response_time recorded in
      n ← evaluate (float_of_int (Z.of_nat (List.length response_times)));
      avg_response_time ← evaluate (float_truediv (fsum response_times) n);
      let fast_responses :=
        count_ones (fun rt => (rt <=? lit 5)%py) response_times in
      let difficulty_counts := count_difficulties recorded in
      let p_score_progression := map p_score_after recorded in
      let final_p_score := List.last p_score_progression (lit 0) in
      fast_rate ← evaluate (int_truediv fast_responses total_attempts);
      transitions ← self_attr difficulty_transitions;
      lowest ← evaluate (py_min p_score_progression);
      highest ← evaluate (py_max p_score_progression);
      now ← time_time;
      start ← self_attr session_start;
      mret (Report
        {| total_attempts := total_attempts;
           correct_attempts := correct_attempts;
           accuracy_rate := py_round (accuracy_rate * lit 100)%py 1;
           avg_response_time := py_round avg_response_time 2;
           fast_responses := fast_responses;
           fast_response_rate := py_round (fast_rate * lit 100)%py 1;
           difficulty_distribution := difficulty_counts;
           n_difficulty_transitions := Z.of_nat (List.length transitions);
           final_p_score := py_round final_p_score 2;
           p_score_range_min := py_round lowest 2;
           p_score_range_max := py_round highest 2;
           session_duration := py_round (now - start)%py 1 |})
  end.

Definition get_recent_performance (last_n : Z)
  : raising world (report Recent) :=
  recorded ← self_attr attempts;
  let recent_attempts :=
    if (Z.of_nat (List.length recorded) <? last_n)%Z then recorded
    else py_slice_from recorded (- last_n) in
  match recent_attempts with
  | [] => mret (Error "No recent attempts")
  | _ =>
      let recent_correct := count_ones is_correct recent_attempts in
      recent_accuracy ←
        evaluate (int_truediv recent_correct
               (Z.of_nat (List.length recent_attempts)));
      mret (Report
        {| attempts_analyzed := Z.of_nat (List.length recent_attempts);
           recent_accuracy := py_round (recent_accuracy * lit 100)%py 1;
           recent_correct := recent_correct;
           trend :=
             if (lit (6 # 10) <? recent_accuracy)%py then "improving"
             else "struggling" |})
  end.

End Tracker.

Arguments Time F : clear implicits.
Arguments Attempt F : clear implicits.
Arguments Transition F : clear implicits.
Arguments PerformanceTracker F : clear implicits.
Arguments world F : clear implicits.
Arguments Summary F : clear implicits.
Arguments Recent F : clear implicits.
Arguments Error {A} error.
Arguments Report {A} entries.

End PerformanceTracker.

(** ** [main.py]: [simulate_user_response] *)

(** [int(x)] on a float: the integer part, towards zero. *)
Class PyTruncate (F : Type) : Type := {
  py_int : F -> tried Z
}.

#[export] Instance PyTruncate_Q : PyTruncate Q := {
  py_int q := Done (Z.quot (Qnum q) (Zpos (Qden q)))
}.

(** In binary64 [int] raises [OverflowError] on an infinity and
    [ValueError] on NaN. *)
#[export] Instance PyTruncate_binary64 : PyTruncate float := {
  py_int x :=
    match Prim2SF x with
    | S754_zero _ => Done 0%Z
    | S754_finite s m e =>
        let whole :=
          match e with
          | Zneg k => (Zpos m / 2 ^ Zpos k)%Z
          | _ => (Zpos m * 2 ^ e)%Z
          end in
        Done (if s then (- whole)%Z else whole)
    | S754_infinity _ => Failed OverflowError
    | S754_nan =>
        Failed (Raised (ValueError "cannot convert float NaN to integer"))
    end
}.

Module Simulation.

Import PuzzleGenerator.

(** A call of the module [random] inside a function that can also raise
    the exceptions of arithmetic. *)
Definition from_random {A} (m : method Random A) : raising Random A :=
  fun g =>
    match m g with
    | (Return a, g') => (Done a, g')
    | (Raise e, g') => (Failed (Raised e), g')
    end.

Section Simulate.

Context {F : Type} `{PyFloat F} `{!PyStatistics F} `{!PyTruncate F}.

(** [random.random()]: a multiple of 2^-53 in [0.0, 1.0), from one raw
    draw. *)
Definition random : raising Random F :=
  k ← from_random next_draw;
  mret (lit (Z.of_N (k mod 2 ^ 53) # 2 ^ 53)).

(** [random.uniform(a, b)] is [a + (b - a) * random()]. *)
Definition uniform (a b : Q) : raising Random F :=
  r ← random;
  mret (lit a + (lit b - lit a) * r)%py.

Definition simulate_user_response (puzzle : Puzzle) (difficulty : string)
  : raising Random (Z * F * bool) :=
  let correct_answer := answer puzzle in
  '(base_time, accuracy_chance) ←
    (if String.eqb difficulty "Easy" then
       base_time ← uniform 2 6; mret (base_time, lit (85 # 100))
     else if String.eqb difficulty "Medium" then
       base_time ← uniform 4 10; mret (base_time, lit (70 # 100))
     else
       base_time ← uniform 6 15; mret (base_time, lit (55 # 100)));
  chance ← random;
  let is_correct := (chance <? accuracy_chance)%py in
  if is_correct then
    factor ← uniform (7 # 10) 1;
    mret (correct_answer, (base_time * factor)%py, is_correct)
  else
    kind ← random;
    user_answer ←
      (if (kind <? lit (5 # 10))%py then
         slip ← from_random (choice [(-2)%Z; (-1)%Z; 1%Z; 2%Z]);
         mret (correct_answer + slip)%Z
       else
         factor ← uniform (5 # 10) (15 # 10);
         x ← evaluate (float_of_int correct_answer);
         evaluate (py_int (x * factor)%py));
    factor ← uniform 1 (14 # 10);
    mret (user_answer, (base_time * factor)%py, is_correct).

End Simulate.

End Simulation.

(** ** Vocabulary of the properties *)

(** The facts of arithmetic the rules rest on: the order of the comparisons,
    subtraction as the addition of the opposite, and the place of the two
    thresholds around zero. *)
Class PyFloatLaws (F : Type) `{PyFloat F} : Prop := {
  fle_trans : forall a b c : F,
    (a <=? b)%py = true -> (b <=? c)%py = true -> (a <=? c)%py = true;
  flt_fle : forall a b : F, (a <? b)%py = true -> (a <=? b)%py = true;
  flt_not_fle : forall a b : F, (a <? b)%py = true -> (b <=? a)%py = false;
  fsub_fadd_fopp : forall a b : F, (a - b)%py = (a + - b)%py;
  lit_0_le_5 : (lit 0 <=? lit 5)%py = true;
  lit_5_not_le_m3 : (lit 5 <=? - lit 3)%py = false
}.

Section Vocabulary.

Context {F : Type} `{PyFloat F}.

(** The engines a session can hold: the attributes [__init__] fixes are
    unchanged and the index points into the three levels. *)
Definition well_formed (self : AdaptiveEngine F) : Prop :=
  difficulty_levels self = ["Easy"; "Medium"; "Hard"] /\
  decay_factor self = lit (9 # 10) /\
  (0 <= current_difficulty_index self <= 2)%Z.

(** The reward or penalty of a turn, as the docstring of
    [update_performance] tabulates it: +2, +1 or -3 points. *)
Definition delta (is_correct : bool) (response_time : F) : F :=
  if is_correct then
    if (response_time <=? lit 5)%py then lit 2 else lit 1
  else (- lit 3)%py.

(** The score [update_performance] holds when it calls the transition
    check: after the reward or penalty and the decay. *)
Definition decayed_score (is_correct : bool) (response_time : F)
    (self : AdaptiveEngine F) : F :=
  p_score (snd ((score_update is_correct response_time;; apply_decay) self)).

(** The engine a session from [__init__] ends with, and its score. *)
Definition after (turns : list (bool * F)) : AdaptiveEngine F :=
  snd (session turns __init__).

Definition final_score (turns : list (bool * F)) : F :=
  p_score (after turns).

(** Two outcomes: a correct answer after 2 seconds, an incorrect answer
    after 1 second. *)
Definition quick : bool * F := (true, lit 2).
Definition wrong : bool * F := (false, lit 1).

End Vocabulary.

(** In exact arithmetic the scores of a session lie between -27 and 18, the
    fixed points of the penalty and of the highest reward under the decay. *)
Definition score_in_range (self : AdaptiveEngine Q) : Prop :=
  (- (27) <= p_score self <= 18)%Q.

(** Where zero stands between the two thresholds. *)
Class PyFloatZero (F : Type) `{PyFloat F} : Prop := {
  zero_not_ge_5 : (lit 0 >=? lit 5)%py = false;
  zero_not_le_m3 : (lit 0 <=? - lit 3)%py = false
}.

(** No transition is pending: the stored score meets no threshold that the
    current level could act on. *)
Definition no_pending_transition {F : Type} `{PyFloat F}
    (self : AdaptiveEngine F) : Prop :=
  ((current_difficulty_index self < 2)%Z ->
     (p_score self >=? lit 5)%py = false) /\
  ((current_difficulty_index self > 0)%Z ->
     (p_score self <=? - lit 3)%py = false).

(** The engines of a session in exact arithmetic: well formed, with the
    score inside the thresholds the level could act on. *)
Definition settled (self : AdaptiveEngine Q) : Prop :=
  well_formed self /\
  ((current_difficulty_index self < 2)%Z -> (p_score self < 5)%Q) /\
  ((0 < current_difficulty_index self)%Z -> (- (3) < p_score self)%Q).

(** The calls a driver can make on a tracker, and the tracker they leave
    when made in turn on a new one; what a call returns or raises is not
    kept. *)
Inductive tracker_call (F : Type) : Type :=
| RecordAttempt (puzzle : PuzzleGenerator.Puzzle) (user_answer : Z)
    (response_time : F) (is_correct : bool) (engine_status : Status F)
| RecordDifficultyTransition (old_difficulty new_difficulty : string)
    (p_score : F) (attempt_number : Z)
| GetSessionSummary
| GetRecentPerformance (last_n : Z).

Arguments RecordAttempt {F}.
Arguments RecordDifficultyTransition {F}.
Arguments GetSessionSummary {F}.
Arguments GetRecentPerformance {F}.

Definition tracker_step {F : Type} `{PyFloat F} `{!PyStatistics F}
    (w : PerformanceTracker.world F) (call : tracker_call F)
  : PerformanceTracker.world F :=
  match call with
  | RecordAttempt puzzle user_answer response_time is_correct status =>
      snd (PerformanceTracker.record_attempt puzzle user_answer response_time
             is_correct status w)
  | RecordDifficultyTransition old_difficulty new_difficulty p_score n =>
      snd (PerformanceTracker.record_difficulty_transition old_difficulty
             new_difficulty p_score n w)
  | GetSessionSummary => snd (PerformanceTracker.get_session_summary w)
  | GetRecentPerformance last_n =>
      snd (PerformanceTracker.get_recent_performance last_n w)
  end.

Definition tracker_run {F : Type} `{PyFloat F} `{!PyStatistics F}
    (calls : list (tracker_call F)) (clock : PerformanceTracker.Time F)
  : PerformanceTracker.world F :=
  fold_left tracker_step calls (PerformanceTracker.__init__ clock).

Definition is_record_attempt {F : Type} (call : tracker_call F) : bool :=
  match call with RecordAttempt _ _ _ _ _ => true | _ => false end.

Definition is_record_transition {F : Type} (call : tracker_call F) : bool :=
  match call with RecordDifficultyTransition _ _ _ _ => true | _ => false end.

(** The window [get_recent_performance] looks at, told from the end of the
    log: the last [last_n] attempts, all of them when there are fewer; for
    [last_n = 0] the whole log, and for a negative [last_n] all but the
    first [- last_n]. *)
Definition recent_window {A : Type} (l : list A) (last_n : Z) : list A :=
  if (0 <? last_n)%Z then
    skipn (List.length l - Z.to_nat (Z.min last_n (Z.of_nat (List.length l)))) l
  else skipn (Z.to_nat (- last_n)) l.

(** The attempts of a log made at a difficulty, and the number of items of
    a list that pass a test. *)
Definition attempts_at {F : Type} (d : string)
    (l : list (PerformanceTracker.Attempt F))
  : list (PerformanceTracker.Attempt F) :=
  List.filter (fun a => String.eqb (PerformanceTracker.difficulty a) d) l.

Definition how_many {A : Type} (test : A -> bool) (l : list A) : Z :=
  Z.of_nat (List.length (List.filter test l)).

(** A log to run the statistics on: a clock that reads 0, 1, 2, ..., two
    attempts at Easy, a move up, and an attempt at Medium. *)
Definition sample_clock {F : Type} `{PyFloat F} : PerformanceTracker.Time F :=
  {| PerformanceTracker.readings := fun n => lit (inject_Z (Z.of_nat n));
     PerformanceTracker.reads := 0 |}.

Definition sample_status {F : Type} `{PyFloat F} (score : F) (level : string)
    (index : Z) : Status F :=
  {| status_p_score := score;
     status_difficulty := level;
     status_difficulty_index := index;
     increase_threshold := lit 5;
     decrease_threshold := (- lit 3)%py |}.

Definition sample_calls {F : Type} `{PyFloat F} : list (tracker_call F) :=
  [ RecordAttempt
      {| PuzzleGenerator.question := "3 + 4";
         PuzzleGenerator.answer := 7;
         PuzzleGenerator.difficulty := "Easy" |}
      7 (lit 3) true (sample_status (lit (18 # 10)) "Easy" 0);
    RecordAttempt
      {| PuzzleGenerator.question := "9 - 5";
         PuzzleGenerator.answer := 4;
         PuzzleGenerator.difficulty := "Easy" |}
      5 (lit 7) false (sample_status (- lit (108 # 100))%py "Easy" 0);
    RecordDifficultyTransition "Easy" "Medium" (lit 0) 2;
    RecordAttempt
      {| PuzzleGenerator.question := "6 * 7";
         PuzzleGenerator.answer := 42;
         PuzzleGenerator.difficulty := "Medium" |}
      42 (lit 4) true (sample_status (lit (828 # 1000)) "Medium" 1) ].

Definition sample_log {F : Type} `{PyFloat F} `{!PyStatistics F}
  : PerformanceTracker.world F :=
  tracker_run sample_calls sample_clock.

(** The generator [k] draws later, the [k]-th next draw as the float
    [random.random()] makes of it, and a point of [[a, b)] told by such a
    float. *)
Definition advance (g : PuzzleGenerator.Random) (k : nat)
  : PuzzleGenerator.Random :=
  {| PuzzleGenerator.draws := PuzzleGenerator.draws g;
     PuzzleGenerator.cursor := k + PuzzleGenerator.cursor g |}.

Definition fraction {F : Type} `{PyFloat F} (g : PuzzleGenerator.Random)
    (k : nat) : F :=
  lit (Z.of_N (PuzzleGenerator.draws g (k + PuzzleGenerator.cursor g)
               mod 2 ^ 53) # 2 ^ 53).

Definition stretch {F : Type} `{PyFloat F} (a b : Q) (r : F) : F :=
  (lit a + (lit b - lit a) * r)%py.

(** The range of the base time and the chance of a correct answer at a
    difficulty; every name but "Easy" and "Medium" counts as Hard. *)
Definition base_range (difficulty : string) : Q * Q :=
  if String.eqb difficulty "Easy" then (2, 6)%Q
  else if String.eqb difficulty "Medium" then (4, 10)%Q
  else (6, 15)%Q.

Definition accuracy_chance (difficulty : string) : Q :=
  if String.eqb difficulty "Easy" then (85 # 100)%Q
  else if String.eqb difficulty "Medium" then (70 # 100)%Q
  else (55 # 100)%Q.

(** Whether binary64 and exact arithmetic agree on a window of [n] attempts
    with [c] correct ones: the division returns, the comparison with 0.6
    goes as for the exact quotient, and the rounded percentage is the
    double nearest to the exact one. *)
#[export] Instance spec_float_eq_dec : EqDecision spec_float.
Proof. solve_decision. Defined.

Definition window_agrees (n c : nat) : bool :=
  match int_truediv (F := float) (Z.of_nat c) (Z.of_nat n) with
  | Done x =>
      Bool.eqb (lit (6 # 10) <? x)%py (3 * Z.of_nat n <? 5 * Z.of_nat c)%Z
      && bool_decide
           (Prim2SF (py_round (x * lit 100)%py 1)
            = Prim2SF
                (lit (Q_round
                        (inject_Z (Z.of_nat c) / inject_Z (Z.of_nat n) * 100)
                        1)))
  | Failed _ => false
  end.

(** * Properties *)

(** ** The two arithmetics *)

Lemma SFleb_trans (a b c : spec_float) :
  SFleb a b = true -> SFleb b c = true -> SFleb a c = true.
Proof.
  unfold SFleb, SFcompare.
  destruct a as [sa|sa| |sa ma ea], b as [sb|sb| |sb mb eb],
           c as [sc|sc| |sc mc ec];
    try destruct sa; try destruct sb; try destruct sc;
    try (intros; reflexivity); try (intros; discriminate).
  all: rewrite ?Pos.compare_cont_spec; simpl.
  all: destruct (Z.compare_spec ea eb), (Z.compare_spec eb ec),
         (Z.compare_spec ea ec); subst; try lia;
       try (intros; reflexivity); try (intros; discriminate).
  all: destruct (Pos.compare_spec ma mb), (Pos.compare_spec mb mc),
         (Pos.compare_spec ma mc); subst; simpl; try lia;
       try (intros; reflexivity); try (intros; discriminate).
Qed.

Lemma SFcompare_antisym (a b : spec_float) (c : comparison) :
  SFcompare a b = Some c -> SFcompare b a = Some (CompOpp c).
Proof.
  unfold SFcompare.
  destruct a as [sa|sa| |sa ma ea], b as [sb|sb| |sb mb eb];
    try destruct sa; try destruct sb;
    try (intros [= <-]; reflexivity); try discriminate.
  all: rewrite ?Pos.compare_cont_spec; simpl.
  all: rewrite (Z.compare_antisym ea eb), (Pos.compare_antisym ma mb).
  all: destruct (ea ?= eb)%Z; simpl; try (intros [= <-]; reflexivity).
  all: destruct (ma ?= mb)%positive; simpl; intros [= <-]; reflexivity.
Qed.

Lemma SFsub_SFadd_opp (a b : spec_float) :
  SF64sub a b = SF64add a (SFopp b).
Proof.
  unfold SF64sub, SF64add.
  destruct a as [sa|sa| |sa ma ea], b as [sb|sb| |sb mb eb]; simpl;
    try destruct sa; try destruct sb; try reflexivity.
  all: f_equal; unfold cond_Zopp; simpl; lia.
Qed.

(** In binary64 [a - b] is [a + (-b)]: subtracting 3 and adding -3 are one
    operation, also on zeros, infinities and NaN. *)
Lemma float_sub_add_opp (a b : float) : (a - b = a + - b)%float.
Proof.
  apply Prim2SF_inj.
  now rewrite sub_spec, add_spec, opp_spec, SFsub_SFadd_opp.
Qed.

#[export] Instance PyFloatLaws_binary64 : PyFloatLaws float.
Proof.
  split; cbn.
  - intros a b c. rewrite !leb_spec. apply SFleb_trans.
  - intros a b. rewrite ltb_spec, leb_spec. unfold SFltb, SFleb.
    destruct (SFcompare _ _) as [[]|]; congruence.
  - intros a b. rewrite ltb_spec, leb_spec. unfold SFltb, SFleb.
    destruct (SFcompare (Prim2SF a) (Prim2SF b)) as [[]|] eqn:E;
      try discriminate.
    now rewrite (SFcompare_antisym _ _ _ E).
  - apply float_sub_add_opp.
  - reflexivity.
  - reflexivity.
Qed.

#[export] Instance PyFloatLaws_Q : PyFloatLaws Q.
Proof.
  split; cbn.
  - intros a b c. rewrite !Qle_bool_iff. apply Qle_trans.
  - intros a b. rewrite negb_true_iff, <- not_true_iff_false.
    rewrite !Qle_bool_iff. intros Hn. apply Qlt_le_weak, Qnot_le_lt, Hn.
  - intros a b. now rewrite negb_true_iff.
  - reflexivity.
  - reflexivity.
  - reflexivity.
Qed.

(** The literals of the source denote the binary64 values Python reads. *)
Example float_literals :
  (lit 0, lit (9 # 10), lit 5, (- lit 3)%py, lit 2, lit 1, lit 3)
  = (0, 0x1.ccccccccccccdp-1, 5, -3, 2, 1, 3)%float.
Proof. reflexivity. Qed.

(** ** The engine, step by step *)

Section EngineSteps.

Context {F : Type} `{PyFloat F}.
Implicit Types (self : AdaptiveEngine F) (t : F) (c : bool).

(** Case analysis on the test of the first conditional of the goal. *)
Ltac split_if E :=
  lazymatch goal with
  | |- context [if ?c then _ else _] => destruct c eqn:E
  end.

Ltac run_method :=
  cbv [update_performance get_status score_update apply_decay
       _check_difficulty_transition current_difficulty decayed_score
       mbind method_bind mret method_ret mthrow method_throw attr assign].

Lemma well_formed_init : well_formed __init__.
Proof. repeat split; cbn; lia. Qed.

(** The label of a level, by its index. *)
Lemma level_cases self :
  well_formed self ->
  let i := current_difficulty_index self in
  (i = 0%Z /\ py_index (difficulty_levels self) i = Some "Easy") \/
  (i = 1%Z /\ py_index (difficulty_levels self) i = Some "Medium") \/
  (i = 2%Z /\ py_index (difficulty_levels self) i = Some "Hard").
Proof.
  intros (Hl & _ & Hi) i. rewrite Hl.
  assert (i = 0 \/ i = 1 \/ i = 2)%Z as [-> | [-> | ->]] by (subst i; lia);
    auto.
Qed.

(** Two levels have the same label only if they are the same level. *)
Lemma level_inj self self' d d' :
  well_formed self -> well_formed self' ->
  py_index (difficulty_levels self) (current_difficulty_index self) = Some d ->
  py_index (difficulty_levels self') (current_difficulty_index self')
    = Some d' ->
  d = d' <-> current_difficulty_index self = current_difficulty_index self'.
Proof.
  intros Hwf Hwf' Hd Hd'.
  destruct (level_cases _ Hwf) as [[Ei E] | [[Ei E] | [Ei E]]];
    destruct (level_cases _ Hwf') as [[Ei' E'] | [[Ei' E'] | [Ei' E']]];
    rewrite E in Hd; rewrite E' in Hd'; rewrite Ei, Ei';
    injection Hd as <-; injection Hd' as <-;
    split; (reflexivity || discriminate).
Qed.

Lemma current_difficulty_returns self :
  well_formed self ->
  exists d, current_difficulty self = (Return d, self) /\
    py_index (difficulty_levels self) (current_difficulty_index self) = Some d.
Proof.
  intros Hwf. run_method.
  destruct (level_cases _ Hwf) as [[_ E] | [[_ E] | [_ E]]];
    rewrite E; eauto.
Qed.

Lemma bind_return {S A B} (m : method S A) (k : A -> method S B)
    (self self1 : S) (a : A) :
  m self = (Return a, self1) -> (m ≫= k) self = k a self1.
Proof. unfold mbind, method_bind. now intros ->. Qed.

Lemma bind_assoc {S A B C} (m : method S A) (k1 : A -> method S B)
    (k2 : B -> method S C) (self : S) :
  ((m ≫= k1) ≫= k2) self = (m ≫= fun a => k1 a ≫= k2) self.
Proof.
  unfold mbind, method_bind. destruct (m self) as [[a | e] self1]; reflexivity.
Qed.

Lemma attr_return {S A} (field : S -> A) (self : S) :
  attr field self = (Return (field self), self).
Proof. reflexivity. Qed.

Lemma apply_decay_run self :
  apply_decay self =
    (Return tt, set_p_score (p_score self * decay_factor self)%py self).
Proof. reflexivity. Qed.

(** The reward step returns the rationale and leaves all but the score. *)
Lemma score_update_returns self c t :
  score_update c t self =
    (Return (if c then if (t <=? lit 5)%py then HighFluency else Accuracy
             else Inaccurate),
     set_p_score
       (if c then
          if (t <=? lit 5)%py then (p_score self + lit 2)%py
          else (p_score self + lit 1)%py
        else (p_score self - lit 3)%py) self).
Proof.
  unfold score_update. destruct c; [destruct (t <=? lit 5)%py|]; reflexivity.
Qed.

(** ... and what it adds to the score is [delta]. *)
Lemma score_update_run `{!PyFloatLaws F} self c t :
  score_update c t self =
    (Return (if c then if (t <=? lit 5)%py then HighFluency else Accuracy
             else Inaccurate),
     set_p_score (p_score self + delta c t)%py self).
Proof.
  rewrite score_update_returns. unfold delta.
  destruct c; [destruct (t <=? lit 5)%py|]; try reflexivity.
  now rewrite fsub_fadd_fopp.
Qed.

Lemma score_then_decay self c t :
  (score_update c t;; apply_decay) self =
    (Return tt, set_p_score (decayed_score c t self) self).
Proof.
  unfold decayed_score.
  rewrite (bind_return _ _ _ _ _ (score_update_returns self c t)).
  reflexivity.
Qed.

Lemma decayed_score_eq `{!PyFloatLaws F} self c t :
  decayed_score c t self =
    ((p_score self + delta c t) * decay_factor self)%py.
Proof.
  unfold decayed_score.
  rewrite (bind_return _ _ _ _ _ (score_update_run self c t)).
  reflexivity.
Qed.

(** The transition check on any engine. *)
Lemma check_difficulty_transition_run self :
  let p := p_score self in
  let i := current_difficulty_index self in
  let top := (Z.of_nat (List.length (difficulty_levels self)) - 1)%Z in
  _check_difficulty_transition self =
    if (p >=? lit 5)%py && (i <? top)%Z then
      (Return true, set_p_score (lit 0) (set_current_difficulty_index (i + 1) self))
    else if (p <=? - lit 3)%py && (i >? 0)%Z then
      (Return true, set_p_score (lit 0) (set_current_difficulty_index (i - 1) self))
    else (Return false, self).
Proof.
  run_method. cbv zeta.
  split_if Eup; [reflexivity|].
  split_if Edn; reflexivity.
Qed.

(** With the three levels of [__init__], the highest index is 2. *)
Lemma check_on_well_formed self :
  well_formed self ->
  let p := p_score self in
  let i := current_difficulty_index self in
  _check_difficulty_transition self =
    if (p >=? lit 5)%py && (i <? 2)%Z then
      (Return true, set_p_score (lit 0) (set_current_difficulty_index (i + 1) self))
    else if (p <=? - lit 3)%py && (i >? 0)%Z then
      (Return true, set_p_score (lit 0) (set_current_difficulty_index (i - 1) self))
    else (Return false, self).
Proof.
  intros (Hl & _ & _). rewrite check_difficulty_transition_run, Hl.
  reflexivity.
Qed.

Lemma check_preserves_well_formed self b self' :
  well_formed self ->
  _check_difficulty_transition self = (Return b, self') ->
  well_formed self'.
Proof.
  intros (Hl & Hd & Hi). rewrite check_difficulty_transition_run, Hl.
  change (Z.of_nat (List.length ["Easy"; "Medium"; "Hard"]) - 1)%Z with 2%Z.
  cbv zeta.
  split_if Eup; [|split_if Edn]; intros [= <- <-].
  all: repeat split; cbn; try assumption; lia.
Qed.

Lemma check_returns self :
  exists b self', _check_difficulty_transition self = (Return b, self').
Proof.
  rewrite check_difficulty_transition_run. cbv zeta.
  split_if Eup; [|split_if Edn]; eauto.
Qed.

(** One call, as the composition of its steps. *)
Lemma update_performance_run self c t :
  well_formed self ->
  exists d d' b self',
    current_difficulty self = (Return d, self) /\
    _check_difficulty_transition
      (set_p_score (decayed_score c t self) self) = (Return b, self') /\
    current_difficulty self' = (Return d', self') /\
    well_formed self' /\
    update_performance c t self =
      (Return {| old_score := p_score self;
                 new_score := p_score self';
                 score_change := (p_score self' - p_score self * lit (9 # 10))%py;
                 old_difficulty := d;
                 new_difficulty := d';
                 transition_occurred := b;
                 rationale :=
                   if c then
                     if (t <=? lit 5)%py then HighFluency else Accuracy
                   else Inaccurate |},
       self').
Proof.
  intros Hwf.
  destruct (current_difficulty_returns _ Hwf) as (d & Hd & _).
  set (mid := set_p_score (decayed_score c t self) self).
  assert (well_formed mid) as Hmid by exact Hwf.
  destruct (check_returns mid) as (b & self' & Hb).
  pose proof (check_preserves_well_formed _ _ _ Hmid Hb) as Hwf'.
  destruct (current_difficulty_returns _ Hwf') as (d' & Hd' & _).
  exists d, d', b, self'. do 4 (split; [assumption|]).
  assert (decay_factor self' = lit (9 # 10)) as Hdecay by apply Hwf'.
  unfold update_performance.
  rewrite (bind_return _ _ _ _ _ (attr_return p_score self)).
  rewrite (bind_return _ _ _ _ _ Hd).
  rewrite (bind_return _ _ _ _ _ (score_update_returns self c t)).
  pose proof (score_then_decay self c t) as Hsd. fold mid in Hsd.
  rewrite (bind_return _ _ _ _ _ (score_update_returns self c t)) in Hsd.
  rewrite (bind_return _ _ _ _ _ Hsd).
  rewrite (bind_return _ _ _ _ _ Hb).
  rewrite (bind_return _ _ _ _ _ (attr_return p_score self')).
  rewrite (bind_return _ _ _ _ _ (attr_return decay_factor self')).
  rewrite (bind_return _ _ _ _ _ Hd'), Hdecay.
  reflexivity.
Qed.

(** A call on a well-formed engine returns, and leaves it well-formed. *)
Lemma update_performance_returns self c t :
  well_formed self ->
  exists r self',
    update_performance c t self = (Return r, self') /\ well_formed self'.
Proof.
  intros Hwf.
  destruct (update_performance_run self c t Hwf)
    as (d & d' & b & self' & _ & _ & _ & Hwf' & Hrun).
  eauto.
Qed.

(** So does a whole session, with one result per turn. *)
Lemma session_returns turns self :
  well_formed self ->
  exists rs self',
    session turns self = (Return rs, self') /\ well_formed self' /\
    List.length rs = List.length turns.
Proof.
  revert self. induction turns as [|[c t] turns IH]; intros self Hwf.
  - exists [], self. auto.
  - destruct (update_performance_returns self c t Hwf)
      as (r & self1 & Hr & Hwf1).
    destruct (IH self1 Hwf1) as (rs & self' & Hrs & Hwf' & Hlen).
    exists (r :: rs), self'. cbn [session].
    rewrite (bind_return _ _ _ _ _ Hr), (bind_return _ _ _ _ _ Hrs).
    cbn. auto.
Qed.

(** Every engine a session from [__init__] ends with is well-formed. *)
Lemma after_well_formed turns : well_formed (after turns).
Proof.
  unfold after.
  destruct (session_returns turns __init__ well_formed_init)
    as (rs & self' & -> & Hwf & _).
  exact Hwf.
Qed.

(** The score-change entry of the result. *)
Lemma score_change_run self c t :
  well_formed self ->
  exists r self',
    update_performance c t self = (Return r, self') /\
    score_change r = (new_score r - old_score r * lit (9 # 10))%py /\
    old_score r = p_score self /\
    (transition_occurred r = true ->
       new_score r = lit 0 /\
       score_change r = (lit 0 - p_score self * lit (9 # 10))%py) /\
    (transition_occurred r = false ->
       new_score r = decayed_score c t self /\
       score_change r
         = (decayed_score c t self - p_score self * lit (9 # 10))%py).
Proof.
  intros Hwf.
  destruct (update_performance_run self c t Hwf)
    as (d & d' & b & self' & _ & Hb & _ & _ & Hrun).
  rewrite Hrun. eexists _, self'. split; [reflexivity|]. cbn.
  do 2 (split; [reflexivity|]).
  rewrite check_on_well_formed in Hb by exact Hwf. cbn in Hb.
  destruct (_ && _) in Hb; [|destruct (_ && _) in Hb];
    injection Hb as <- <-; cbn; split; intros; (discriminate || auto).
Qed.

(** At the highest level a score at or above the upper threshold, and at
    the lowest level a score at or below the lower one, change nothing. *)
Lemma no_transition_at_the_ends `{!PyFloatLaws F} self c t :
  well_formed self ->
  let p := decayed_score c t self in
  let i := current_difficulty_index self in
  exists r self',
    update_performance c t self = (Return r, self') /\
    (i = 2%Z -> (p >=? lit 5)%py = true ->
       current_difficulty_index self' = 2%Z /\ p_score self' = p /\
       new_score r = p /\ new_difficulty r = "Hard" /\
       transition_occurred r = false) /\
    (i = 0%Z -> (p <=? - lit 3)%py = true ->
       current_difficulty_index self' = 0%Z /\ p_score self' = p /\
       new_score r = p /\ new_difficulty r = "Easy" /\
       transition_occurred r = false).
Proof.
  intros Hwf p i.
  destruct (update_performance_run self c t Hwf)
    as (d & d' & b & self' & _ & Hb & Hd' & Hwf' & Hrun).
  rewrite Hrun. eexists _, self'. split; [reflexivity|]. cbn.
  destruct (current_difficulty_returns _ Hwf') as (d1 & Hd1 & Hi1).
  rewrite Hd1 in Hd'. injection Hd' as <-.
  rewrite check_on_well_formed in Hb by exact Hwf. cbn in Hb.
  fold p i in Hb.
  assert (well_formed self) as (Hl & _ & _) by exact Hwf.
  split; intros Ei Hp; rewrite Ei in Hb.
  - assert ((p <=? - lit 3)%py = false) as Hlow.
    { destruct (p <=? - lit 3)%py eqn:E; [|reflexivity].
      rewrite <- lit_5_not_le_m3. symmetry.
      exact (fle_trans _ _ _ Hp E). }
    rewrite Hp, Hlow in Hb. cbn in Hb. injection Hb as <- <-.
    cbn in Hi1. fold i in Hi1. rewrite Hl, Ei in Hi1.
    injection Hi1 as <-. auto.
  - assert ((p >=? lit 5)%py = false) as Hhigh.
    { destruct (p >=? lit 5)%py eqn:E; [|reflexivity].
      rewrite <- lit_5_not_le_m3. symmetry.
      exact (fle_trans _ _ _ E Hp). }
    rewrite Hp, Hhigh in Hb. cbn in Hb. injection Hb as <- <-.
    cbn in Hi1. fold i in Hi1. rewrite Hl, Ei in Hi1.
    injection Hi1 as <-. auto.
Qed.

(** The status query returns the five entries and leaves the engine. *)
Lemma get_status_run self :
  well_formed self ->
  exists d,
    py_index (difficulty_levels self) (current_difficulty_index self)
      = Some d /\
    get_status self =
      (Return {| status_p_score := py_round (p_score self) 2;
                 status_difficulty := d;
                 status_difficulty_index := current_difficulty_index self;
                 increase_threshold := lit 5;
                 decrease_threshold := (- lit 3)%py |},
       self).
Proof.
  intros Hwf.
  destruct (current_difficulty_returns _ Hwf) as (d & Hd & Hi).
  exists d. split; [exact Hi|]. unfold get_status.
  rewrite (bind_return _ _ _ _ _ (attr_return p_score self)).
  rewrite (bind_return _ _ _ _ _ Hd).
  reflexivity.
Qed.

End EngineSteps.

(** ** The update rule and the transition check *)

Section EngineClaims.

Context {F : Type} `{PyFloat F}.
Implicit Types (self : AdaptiveEngine F) (t : F) (c : bool).

(** C1.  In a call of [update_performance], once the decayed score is
    computed: when it is [>= 5.0] and the level is not the highest (index
    below 2), the index goes up by one, the score is reset to exactly [0.0]
    and the call signals a transition; otherwise, when it is [<= -3.0] and
    the level is not the lowest (index above 0), the index goes down by one,
    the score is reset to exactly [0.0] and the call signals a transition;
    otherwise index and score stay as computed and no transition is
    signalled.  The increase is tested first. *)
Theorem transition_check_rule self c t :
  well_formed self ->
  let p := decayed_score c t self in
  let i := current_difficulty_index self in
  exists r self',
    update_performance c t self = (Return r, self') /\
    if (p >=? lit 5)%py && (i <? 2)%Z then
      current_difficulty_index self' = (i + 1)%Z /\
      p_score self' = lit 0 /\ new_score r = lit 0 /\
      transition_occurred r = true
    else if (p <=? - lit 3)%py && (i >? 0)%Z then
      current_difficulty_index self' = (i - 1)%Z /\
      p_score self' = lit 0 /\ new_score r = lit 0 /\
      transition_occurred r = true
    else
      current_difficulty_index self' = i /\
      p_score self' = p /\ new_score r = p /\
      transition_occurred r = false.
Proof.
  intros Hwf p i.
  destruct (update_performance_run self c t Hwf)
    as (d & d' & b & self' & _ & Hb & _ & _ & Hrun).
  rewrite Hrun. eexists _, self'. split; [reflexivity|].
  rewrite check_on_well_formed in Hb by exact Hwf. cbn in Hb.
  fold p i in Hb |- *.
  destruct ((p >=? lit 5)%py && (i <? 2)%Z);
    [|destruct ((p <=? - lit 3)%py && (i >? 0)%Z)];
    injection Hb as <- <-; cbn; auto.
Qed.

(** C2.  The score the transition check sees is
    [(previousScore + delta) * 0.9]: the decay is applied once in a call,
    after the reward or penalty and before the check, also on a turn that
    then triggers a transition; and when no transition fires, that value is
    the new score, returned and stored. *)
Theorem decay_applied_once `{!PyFloatLaws F} self c t :
  well_formed self ->
  let decayed := ((p_score self + delta c t) * lit (9 # 10))%py in
  exists r self',
    update_performance c t self = (Return r, self') /\
    _check_difficulty_transition (set_p_score decayed self)
      = (Return (transition_occurred r), self') /\
    (transition_occurred r = false ->
       new_score r = decayed /\ p_score self' = decayed).
Proof.
  intros Hwf decayed.
  destruct (update_performance_run self c t Hwf)
    as (d & d' & b & self' & _ & Hb & _ & _ & Hrun).
  rewrite Hrun. eexists _, self'. split; [reflexivity|]. cbn.
  assert (decayed_score c t self = decayed) as Hp.
  { rewrite decayed_score_eq. destruct Hwf as (_ & -> & _). reflexivity. }
  rewrite Hp in Hb. split; [exact Hb|].
  intros ->. rewrite check_on_well_formed in Hb by exact Hwf. cbn in Hb.
  destruct (_ && _) in Hb; [discriminate|].
  destruct (_ && _) in Hb; [discriminate|].
  injection Hb as <-. auto.
Qed.



(** C10.  A call signals a transition exactly when the difficulty it
    returns differs from the previous one, which is exactly when the stored
    index changes; and the new score it returns is the score stored after
    the call. *)
Theorem transition_iff_difficulty_changes self c t :
  well_formed self ->
  exists r self',
    update_performance c t self = (Return r, self') /\
    (transition_occurred r = true <-> new_difficulty r <> old_difficulty r) /\
    (transition_occurred r = true <->
       current_difficulty_index self' <> current_difficulty_index self) /\
    new_score r = p_score self'.
Proof.
  intros Hwf.
  destruct (update_performance_run self c t Hwf)
    as (d & d' & b & self' & Hd & Hb & Hd' & Hwf' & Hrun).
  rewrite Hrun. eexists _, self'. split; [reflexivity|]. cbn.
  destruct (current_difficulty_returns _ Hwf) as (d0 & Hd0 & Hi0).
  destruct (current_difficulty_returns _ Hwf') as (d1 & Hd1 & Hi1).
  rewrite Hd0 in Hd. rewrite Hd1 in Hd'.
  injection Hd as <-. injection Hd' as <-.
  pose proof (level_inj _ _ _ _ Hwf Hwf' Hi0 Hi1) as Hinj.
  assert (b = true <->
          current_difficulty_index self' <> current_difficulty_index self)
    as Hidx.
  { rewrite check_on_well_formed in Hb by exact Hwf. cbn in Hb.
    destruct (_ && _) in Hb; [|destruct (_ && _) in Hb];
      injection Hb as <- <-; cbn; split; try lia; try discriminate;
      reflexivity || (intros Hne; now contradict Hne). }
  split; [|split; [exact Hidx | reflexivity]].
  rewrite Hidx. split; intros Hne E; apply Hne.
  - symmetry. apply Hinj. now symmetry.
  - symmetry. apply Hinj. now symmetry.
Qed.

(** C6.  Whatever the outcomes of a session that starts from the initial
    engine, every call returns and the difficulty index ends within [0, 2]:
    it never goes past Hard nor below Easy. *)
Theorem difficulty_index_in_range (turns : list (bool * F)) :
  exists rs self',
    session turns __init__ = (Return rs, self') /\
    (0 <= current_difficulty_index self' <= 2)%Z.
Proof.
  destruct (session_returns turns __init__ well_formed_init)
    as (rs & self' & Hrs & (_ & _ & Hi) & _).
  eauto.
Qed.

End EngineClaims.

(** ** The rules in exact arithmetic *)

Section ExactArithmetic.

Implicit Types (self : AdaptiveEngine Q) (t : Q) (c : bool).

Ltac exact_arith :=
  cbn [lit fopp fadd fsub fmul fleb fltb PyFloat_Q] in *.

Lemma delta_cases c t :
  delta c t = 2%Q \/ delta c t = 1%Q \/ delta c t = (- (3))%Q.
Proof.
  unfold delta. exact_arith. destruct c; [destruct (Qle_bool t 5)|]; auto.
Qed.

(** What a call stores: zero after a transition, the decayed score if not. *)
Lemma stored_score self c t :
  well_formed self ->
  exists r self',
    update_performance c t self = (Return r, self') /\ well_formed self' /\
    (p_score self' = 0%Q \/
     p_score self' = ((p_score self + delta c t) * (9 # 10))%Q /\
     current_difficulty_index self' = current_difficulty_index self /\
     transition_occurred r = false).
Proof.
  intros Hwf.
  destruct (update_performance_run self c t Hwf)
    as (d & d' & b & self' & _ & Hb & _ & Hwf' & Hrun).
  rewrite Hrun. eexists _, self'. do 2 (split; [reflexivity || assumption|]).
  rewrite check_on_well_formed in Hb by exact Hwf. cbn in Hb.
  rewrite decayed_score_eq in Hb. destruct Hwf as (_ & Hdecay & _).
  rewrite Hdecay in Hb.
  destruct (_ && _) in Hb; [|destruct (_ && _) in Hb];
    injection Hb as <- <-; cbn; auto.
Qed.

Lemma update_keeps_range self c t r self' :
  well_formed self -> score_in_range self ->
  update_performance c t self = (Return r, self') ->
  well_formed self' /\ score_in_range self'.
Proof.
  intros Hwf Hrange Hrun.
  destruct (stored_score self c t Hwf) as (r' & self1 & Hrun' & Hwf' & Hp).
  rewrite Hrun in Hrun'. injection Hrun' as <- <-.
  split; [exact Hwf'|]. unfold score_in_range in *.
  destruct Hp as [-> | (-> & _)]; [lra|].
  destruct (delta_cases c t) as [-> | [-> | ->]]; lra.
Qed.

Lemma session_keeps_range turns self :
  well_formed self -> score_in_range self ->
  score_in_range (snd (session turns self)).
Proof.
  revert self. induction turns as [|[c t] turns IH]; intros self Hwf Hrange.
  - exact Hrange.
  - destruct (update_performance_returns self c t Hwf)
      as (r & self1 & Hr & Hwf1).
    destruct (update_keeps_range self c t r self1 Hwf Hrange Hr)
      as (_ & Hrange1).
    specialize (IH self1 Hwf1 Hrange1).
    destruct (session_returns turns self1 Hwf1) as (rs & self' & Hrs & _).
    cbn [session].
    rewrite (bind_return _ _ _ _ _ Hr), (bind_return _ _ _ _ _ Hrs).
    rewrite Hrs in IH. exact IH.
Qed.

Lemma final_score_bounded (turns : list (bool * Q)) :
  (- (27) <= final_score turns <= 18)%Q.
Proof.
  apply (session_keeps_range turns __init__ well_formed_init).
  unfold score_in_range. cbn. lra.
Qed.

(** At the highest level, quick correct answers keep a score that is above
    the upper threshold above it, and growing, for as many turns as one
    likes. *)
Lemma stays_above_threshold self t :
  well_formed self ->
  current_difficulty_index self = 2%Z ->
  (5 <= p_score self <= 18)%Q -> (t <= 5)%Q ->
  exists r self',
    update_performance true t self = (Return r, self') /\
    well_formed self' /\
    current_difficulty_index self' = 2%Z /\
    transition_occurred r = false /\
    (5 <= p_score self' <= 18)%Q /\ (p_score self <= p_score self')%Q.
Proof.
  intros Hwf Hi Hp Ht.
  assert (decayed_score true t self = ((p_score self + 2) * (9 # 10))%Q)
    as Hdecayed.
  { rewrite decayed_score_eq. destruct Hwf as (_ & -> & _).
    unfold delta. exact_arith.
    apply Qle_bool_iff in Ht. now rewrite Ht. }
  destruct (no_transition_at_the_ends self true t Hwf)
    as (r & self' & Hrun & Htop & _).
  destruct (update_performance_returns self true t Hwf)
    as (r' & self1 & Hrun' & Hwf').
  rewrite Hrun in Hrun'. injection Hrun' as <- <-.
  destruct (Htop Hi) as (Hi' & Hp' & _ & _ & Htr).
  { unfold fgeb. exact_arith. rewrite Hdecayed. apply Qle_bool_iff. lra. }
  exists r, self'. do 4 (split; [assumption|]).
  rewrite Hp', Hdecayed. lra.
Qed.

(** Without a transition the score-change entry is the decayed delta. *)
Lemma score_change_is_decayed_delta self c t :
  well_formed self ->
  exists r self',
    update_performance c t self = (Return r, self') /\
    (transition_occurred r = false ->
       (score_change r == delta c t * (9 # 10))%Q).
Proof.
  intros Hwf.
  destruct (score_change_run self c t Hwf)
    as (r & self' & Hrun & _ & _ & _ & Hstay).
  exists r, self'. split; [exact Hrun|]. intros Htr.
  destruct (Hstay Htr) as (_ & ->).
  rewrite decayed_score_eq. destruct Hwf as (_ & -> & _).
  exact_arith. ring.
Qed.

End ExactArithmetic.

(** ** Rounding to two decimals *)

Lemma round_half_even_close (q : Q) :
  (inject_Z (round_half_even q) - (1 # 2) <= q
   <= inject_Z (round_half_even q) + (1 # 2))%Q.
Proof.
  unfold round_half_even.
  pose proof (Qfloor_le q) as Hlo. pose proof (Qlt_floor q) as Hhi.
  rewrite inject_Z_plus in Hhi. change (inject_Z 1) with 1%Q in Hhi.
  destruct (Qcompare_spec (q - inject_Z (Qfloor q)) (1 # 2)) as [E | E | E].
  - destruct (Z.even (Qfloor q)); rewrite ?inject_Z_plus;
      change (inject_Z 1) with 1%Q; lra.
  - lra.
  - rewrite inject_Z_plus. change (inject_Z 1) with 1%Q. lra.
Qed.

(** A tie is broken towards the even neighbour. *)
Lemma round_half_even_tie (q : Q) :
  (q - inject_Z (Qfloor q) == 1 # 2)%Q ->
  Z.even (round_half_even q) = true.
Proof.
  intros E. unfold round_half_even.
  rewrite (proj1 (Qeq_alt _ _) E).
  destruct (Z.even (Qfloor q)) eqn:Ev; [exact Ev|].
  rewrite Z.even_add, Ev. reflexivity.
Qed.

(** In exact arithmetic [round(q, 2)] is the multiple of 1/100 nearest to
    [q]. *)
Lemma Q_round_two_decimals (q : Q) :
  exists n : Z,
    (Q_round q 2 == n # 100)%Q /\
    (Q_round q 2 - (1 # 200) <= q <= Q_round q 2 + (1 # 200))%Q.
Proof.
  exists (round_half_even (q * 100)).
  assert (Q_round q 2 == round_half_even (q * 100) # 100)%Q as E.
  { unfold Q_round. rewrite Qred_correct.
    change (inject_Z (10 ^ Z.of_N 2)) with 100%Q.
    unfold Qeq, Qdiv, Qmult, Qinv, inject_Z. cbn. lia. }
  split; [exact E|]. rewrite E.
  pose proof (round_half_even_close (q * 100)) as Hc.
  set (n := round_half_even (q * 100)) in *.
  assert (n # 100 == inject_Z n / 100)%Q as ->.
  { unfold Qeq, Qdiv, Qmult, Qinv, inject_Z. cbn. lia. }
  clearbody n. generalize dependent (inject_Z n). intros x Hc.
  unfold Qdiv. change (/ 100)%Q with (1 # 100)%Q. lra.
Qed.

(** On binary64 values [round(x, 2)] gives what Python prints: the nearest
    double of the rounded decimal, ties of the exact value to even, the sign
    kept on zero, and large values as they are. *)
Example float_round_examples :
  (py_round (lit (61902 # 10000)) 2, py_round (lit (4878 # 1000)) 2,
   py_round (lit (125 # 1000)) 2, py_round (lit (375 # 1000)) 2,
   py_round (lit (2675 # 1000)) 2, py_round (- lit (1 # 1000))%py 2,
   py_round (lit (inject_Z (10 ^ 300))) 2, py_round infinity 2)
  = (lit (619 # 100), lit (488 # 100),
     lit (12 # 100), lit (38 # 100),
     lit (267 # 100), (- lit 0)%py,
     lit (inject_Z (10 ^ 300)), infinity).
Proof. vm_compute. reflexivity. Qed.

(** ** The puzzle generator *)

Section GeneratorProperties.

Import PuzzleGenerator.

Implicit Types (g : Random).

Lemma randint_returns (a b : Z) g :
  (a <= b)%Z ->
  exists v g', randint a b g = (Return v, g') /\ (a <= v <= b)%Z.
Proof.
  intros Hab. unfold randint.
  destruct (b <? a)%Z eqn:E; [lia|].
  eexists _, _. split; [reflexivity|].
  pose proof (Z.mod_pos_bound (Z.of_N (draws g (cursor g))) (b - a + 1)).
  lia.
Qed.

Lemma choice_returns {A} (seq : list A) g :
  seq <> [] ->
  exists v g', choice seq g = (Return v, g') /\ In v seq.
Proof.
  intros Hne. unfold choice. destruct seq as [|x seq]; [congruence|].
  set (l := x :: seq).
  unfold mbind, method_bind, next_draw.
  destruct (nth_error l (N.to_nat (draws g (cursor g)) mod List.length l))
    as [v|] eqn:E.
  - eexists _, _. split; [reflexivity|]. eapply nth_error_In, E.
  - apply nth_error_None in E.
    pose proof (Nat.mod_upper_bound (N.to_nat (draws g (cursor g)))
                  (List.length l)) as Hlt.
    cbn in Hlt, E. lia.
Qed.

(** Steps through a generator: a draw in a non-empty range, a choice in a
    non-empty list. *)
Ltac draw v g' Hv :=
  rewrite ?bind_assoc;
  lazymatch goal with
  | |- context [mbind ?k (randint ?a ?b) ?g] =>
      let H := fresh "Hrun" in
      destruct (randint_returns a b g ltac:(lia)) as (v & g' & H & Hv);
      rewrite (bind_return (randint a b) k g g' v H); clear H; cbv beta
  | |- context [mbind ?k (choice ?l) ?g] =>
      let H := fresh "Hrun" in
      destruct (choice_returns l g ltac:(discriminate)) as (v & g' & H & Hv);
      rewrite (bind_return (choice l) k g g' v H); clear H; cbv beta
  end.

(** Decides the string comparisons of the goal. *)
Ltac compare_strings :=
  repeat match goal with
  | |- context [String.eqb ?a ?b] =>
      let v := eval vm_compute in (String.eqb a b) in
      change (String.eqb a b) with v
  end; cbv iota.

Lemma generate_easy_returns g :
  exists p g', _generate_easy_puzzle g = (Return p, g') /\
    difficulty p = "Easy".
Proof.
  unfold _generate_easy_puzzle.
  draw op g1 Hop. destruct Hop as [<- | [<- | []]]; compare_strings.
  - draw a g2 Ha. draw b g3 Hb. eexists _, _. split; reflexivity.
  - draw a g2 Ha. draw b g3 Hb. eexists _, _. split; reflexivity.
Qed.

Lemma generate_medium_returns g :
  exists p g', _generate_medium_puzzle g = (Return p, g') /\
    difficulty p = "Medium".
Proof.
  unfold _generate_medium_puzzle.
  draw op g1 Hop. destruct Hop as [<- | [<- | [<- | []]]];
    compare_strings;
    draw a g2 Ha; draw b g3 Hb; eexists _, _; split; reflexivity.
Qed.

Lemma generate_hard_returns g :
  exists p g', _generate_hard_puzzle g = (Return p, g') /\
    difficulty p = "Hard".
Proof.
  unfold _generate_hard_puzzle.
  draw ty g1 Hty. destruct Hty as [<- | [<- | [<- | []]]];
    compare_strings.
  - draw a g2 Ha. draw b g3 Hb. draw c g4 Hc.
    eexists _, _. split; reflexivity.
  - draw op g2 Hop. destruct Hop as [<- | [<- | []]];
      compare_strings;
      draw a g3 Ha; draw b g4 Hb; eexists _, _; split; reflexivity.
  - draw q g2 Hq. draw d g3 Hd. eexists _, _. split; reflexivity.
Qed.

(** The generator answers the three labels, and only them. *)
Lemma generate_puzzle_known (d : string) g :
  In d ["Easy"; "Medium"; "Hard"] ->
  exists p g', generate_puzzle d g = (Return p, g') /\ difficulty p = d.
Proof.
  intros [<- | [<- | [<- | []]]]; unfold generate_puzzle.
  - change (operations !! "Easy") with (Some _generate_easy_puzzle).
    apply generate_easy_returns.
  - change (operations !! "Medium") with (Some _generate_medium_puzzle).
    apply generate_medium_returns.
  - change (operations !! "Hard") with (Some _generate_hard_puzzle).
    apply generate_hard_returns.
Qed.

Lemma generate_puzzle_unknown (d : string) g :
  ~ In d ["Easy"; "Medium"; "Hard"] ->
  generate_puzzle d g
    = (Raise (ValueError ("Unknown difficulty: " +:+ d)), g).
Proof.
  intros Hd. unfold generate_puzzle, operations.
  rewrite !lookup_insert_ne, lookup_empty; [reflexivity|..];
    intros <-; apply Hd; cbn; auto.
Qed.

End GeneratorProperties.

(** ** The remaining claims *)

(** C4 (amended).  The score-change entry of every result is
    [newScore - previousScore * 0.9], with the new score the call returns.
    On a call that signals a transition the new score is [0.0], so the entry
    is [0.0 - previousScore * 0.9]; on a call that signals none it is the
    decayed score minus [previousScore * 0.9], which in exact arithmetic is
    [delta * 0.9]. *)
Theorem score_change_formula :
  (forall (F : Type) (PF : PyFloat F) (self : AdaptiveEngine F)
          (c : bool) (t : F),
     well_formed self ->
     exists r self',
       update_performance c t self = (Return r, self') /\
       score_change r = (new_score r - old_score r * lit (9 # 10))%py /\
       old_score r = p_score self /\
       (transition_occurred r = true ->
          new_score r = lit 0 /\
          score_change r = (lit 0 - p_score self * lit (9 # 10))%py) /\
       (transition_occurred r = false ->
          new_score r = decayed_score c t self /\
          score_change r
            = (decayed_score c t self - p_score self * lit (9 # 10))%py)) /\
  (forall (self : AdaptiveEngine Q) (c : bool) (t : Q),
     well_formed self ->
     exists r self',
       update_performance c t self = (Return r, self') /\
       (transition_occurred r = false ->
          (score_change r == delta c t * (9 # 10))%Q)).
Proof.
  split.
  - intros F PF self c t Hwf. apply score_change_run, Hwf.
  - intros self c t Hwf. apply score_change_is_decayed_delta, Hwf.
Qed.


(** C8.  The status query is a pure read: on every engine it returns the
    stored score rounded to two decimals, the label and the index of the
    current level and the thresholds 5.0 and -3.0, and it leaves the engine,
    stored score included, as it was.  Rounding to two decimals gives, in
    exact arithmetic, the multiple of 1/100 nearest to the score. *)
Theorem status_is_a_pure_read :
  (forall (F : Type) (PF : PyFloat F) (self : AdaptiveEngine F),
     well_formed self ->
     exists d,
       py_index (difficulty_levels self) (current_difficulty_index self)
         = Some d /\
       get_status self =
         (Return {| status_p_score := py_round (p_score self) 2;
                    status_difficulty := d;
                    status_difficulty_index := current_difficulty_index self;
                    increase_threshold := lit 5;
                    decrease_threshold := (- lit 3)%py |},
          self)) /\
  (forall q : Q,
     exists n : Z,
       (py_round q 2 == n # 100)%Q /\
       (py_round q 2 - (1 # 200) <= q <= py_round q 2 + (1 # 200))%Q).
Proof.
  split.
  - intros F PF self Hwf. apply get_status_run, Hwf.
  - apply Q_round_two_decimals.
Qed.

(** C9.  Asking for a puzzle raises the unknown-difficulty [ValueError]
    exactly when the label is none of Easy, Medium and Hard, and returns a
    puzzle of that difficulty otherwise.  The update of the engine never
    raises: for every correctness flag and every response time a call on an
    engine of a session returns a result, and so does every session from the
    initial engine, one result per turn. *)
Theorem failure_modes :
  (forall (d : string) (g : PuzzleGenerator.Random),
     (exists msg g',
        PuzzleGenerator.generate_puzzle d g = (Raise (ValueError msg), g'))
     <-> ~ In d ["Easy"; "Medium"; "Hard"]) /\
  (forall (d : string) (g : PuzzleGenerator.Random),
     In d ["Easy"; "Medium"; "Hard"] ->
     exists p g',
       PuzzleGenerator.generate_puzzle d g = (Return p, g') /\
       PuzzleGenerator.difficulty p = d) /\
  (forall (F : Type) (PF : PyFloat F) (self : AdaptiveEngine F)
          (c : bool) (t : F),
     well_formed self ->
     exists r self',
       update_performance c t self = (Return r, self') /\
       well_formed self') /\
  (forall (F : Type) (PF : PyFloat F) (turns : list (bool * F)),
     exists rs self',
       session turns __init__ = (Return rs, self') /\
       List.length rs = List.length turns).
Proof.
  split; [|split; [|split]].
  - intros d g. split.
    + intros (msg & g' & Hraise) Hin.
      destruct (generate_puzzle_known d g Hin) as (p & g1 & Hret & _).
      rewrite Hret in Hraise. discriminate.
    + intros Hout. eexists _, g. apply generate_puzzle_unknown, Hout.
  - apply generate_puzzle_known.
  - intros F PF self c t Hwf. apply update_performance_returns, Hwf.
  - intros F PF turns.
    destruct (session_returns turns __init__ well_formed_init)
      as (rs & self' & Hrs & _ & Hlen).
    eauto.
Qed.

(** ** Sessions of the specification, run *)

(** Evaluates a closed statement about a concrete session. *)
Ltac by_evaluation :=
  repeat split; vm_compute; try reflexivity; try discriminate;
  try (intros; discriminate).

(** From the initial engine four quick correct answers give the scores 1.8,
    3.42, 4.878 and then 6.1902, which crosses the upper threshold: the
    fourth call moves to Medium and resets the score. *)
Example four_quick_answers :
  exists r1 r2 r3 r4 : UpdateResult Q,
    session [quick; quick; quick; quick] __init__
      = (Return [r1; r2; r3; r4],
         set_current_difficulty_index 1 (set_p_score 0%Q __init__)) /\
    (new_score r1 == 18 # 10)%Q /\ (new_score r2 == 342 # 100)%Q /\
    (new_score r3 == 4878 # 1000)%Q /\
    (decayed_score true 2%Q (after [quick; quick; quick]) == 61902 # 10000)%Q /\
    map transition_occurred [r1; r2; r3; r4] = [false; false; false; true] /\
    new_difficulty r4 = "Medium" /\ new_score r4 = 0%Q.
Proof. do 4 eexists. by_evaluation. Qed.

(** The same session in binary64: the scores are the doubles nearest to
    1.8, 3.42 and 4.878. *)
Example four_quick_answers_binary64 :
  exists r1 r2 r3 r4 : UpdateResult float,
    session [quick; quick; quick; quick] __init__
      = (Return [r1; r2; r3; r4],
         set_current_difficulty_index 1 (set_p_score (lit 0) __init__)) /\
    new_score r1 = lit (18 # 10) /\
    new_score r2 = lit (342 # 100) /\
    new_score r3 = lit (4878 # 1000) /\
    map transition_occurred [r1; r2; r3; r4] = [false; false; false; true] /\
    new_difficulty r4 = "Medium" /\ new_score r4 = lit 0.
Proof. do 4 eexists. by_evaluation. Qed.

(** From Medium with score 0.0 two incorrect answers give -2.7, which is
    above the lower threshold, and then -5.13, which is not: the second call
    moves back to Easy and resets the score. *)
Example two_wrong_answers_at_medium :
  let medium : AdaptiveEngine Q := after [quick; quick; quick; quick] in
  exists r1 r2 : UpdateResult Q,
    current_difficulty_index medium = 1%Z /\ p_score medium = 0%Q /\
    session [wrong; wrong] medium
      = (Return [r1; r2], set_current_difficulty_index 0 medium) /\
    (new_score r1 == - (27 # 10))%Q /\ transition_occurred r1 = false /\
    (decayed_score false 1%Q (snd (update_performance false 1%Q medium))
       == - (513 # 100))%Q /\
    transition_occurred r2 = true /\ new_difficulty r2 = "Easy" /\
    new_score r2 = 0%Q.
Proof. do 2 eexists. by_evaluation. Qed.

(** In binary64 the growth under quick correct answers stops too: after 400
    of them the engine is at Hard with a score just below 18 that one more
    quick correct answer leaves as it is. *)
Example binary64_growth_stops :
  let hard : AdaptiveEngine float := after (repeat quick 400) in
  current_difficulty_index hard = 2%Z /\
  (lit 5 <? p_score hard)%py = true /\ (p_score hard <? lit 18)%py = true /\
  snd (update_performance true (lit 2) hard) = hard.
Proof. by_evaluation. Qed.

(** ** The claims at concrete sessions *)

(** C1 at the engine three quick answers leave (Easy, 4.878): a fourth
    crosses the upper threshold and moves to Medium. *)
Lemma transition_check_rule_witness :
  well_formed (after [quick; quick; quick] : AdaptiveEngine float) /\
  exists r self',
    update_performance true (lit 2)
      (after [quick; quick; quick] : AdaptiveEngine float)
      = (Return r, self') /\
    current_difficulty_index self' = 1%Z /\
    p_score self' = lit 0 /\ new_score r = lit 0 /\
    transition_occurred r = true.
Proof.
  assert (well_formed (after [quick; quick; quick] : AdaptiveEngine float))
    as Hwf by by_evaluation.
  split; [exact Hwf|].
  destruct (transition_check_rule _ true (lit 2) Hwf)
    as (r & self' & Hrun & Hcase).
  exists r, self'. split; [exact Hrun|].
  vm_compute in Hcase. exact Hcase.
Defined.

(** C2 at the initial engine: a quick correct answer stores (0 + 2) * 0.9. *)
Lemma decay_applied_once_witness :
  well_formed (__init__ : AdaptiveEngine float) /\
  exists r self',
    update_performance true (lit 2) (__init__ : AdaptiveEngine float)
      = (Return r, self') /\
    new_score r = lit (18 # 10) /\ p_score self' = lit (18 # 10).
Proof.
  split; [apply well_formed_init|].
  destruct (decay_applied_once (F := float) __init__ true (lit 2)
              well_formed_init) as (r & self' & Hrun & Hcheck & Hstay).
  exists r, self'. split; [exact Hrun|].
  vm_compute in Hcheck. injection Hcheck as Htr _.
  exact (Hstay (eq_sym Htr)).
Defined.



(** C10 at the engine three quick answers leave: the fourth signals a
    transition and returns a different difficulty. *)
Lemma transition_iff_difficulty_changes_witness :
  well_formed (after [quick; quick; quick] : AdaptiveEngine float) /\
  exists r self',
    update_performance true (lit 2)
      (after [quick; quick; quick] : AdaptiveEngine float)
      = (Return r, self') /\
    (transition_occurred r = true <-> new_difficulty r <> old_difficulty r) /\
    (transition_occurred r = true <->
       current_difficulty_index self' <> 0%Z) /\
    new_score r = p_score self'.
Proof.
  assert (well_formed (after [quick; quick; quick] : AdaptiveEngine float))
    as Hwf by by_evaluation.
  split; [exact Hwf|].
  exact (transition_iff_difficulty_changes _ true (lit 2) Hwf).
Defined.

(** C4 at the engine three quick answers leave: the fourth signals a
    transition, and its score-change entry is [0.0 - 4.878 * 0.9]. *)
Lemma score_change_formula_witness :
  well_formed (after [quick; quick; quick] : AdaptiveEngine float) /\
  exists r self',
    update_performance true (lit 2)
      (after [quick; quick; quick] : AdaptiveEngine float)
      = (Return r, self') /\
    transition_occurred r = true /\
    score_change r = (lit 0 - lit (4878 # 1000) * lit (9 # 10))%py.
Proof.
  assert (well_formed (after [quick; quick; quick] : AdaptiveEngine float))
    as Hwf by by_evaluation.
  split; [exact Hwf|].
  destruct (proj1 score_change_formula float _ _ true (lit 2) Hwf)
    as (r & self' & Hrun & _ & _ & Hreset & _).
  exists r, self'. split; [exact Hrun|].
  assert (transition_occurred r = true) as Htr.
  { vm_compute in Hrun. now injection Hrun as <- _. }
  split; [exact Htr | exact (proj2 (Hreset Htr))].
Defined.


(** C8 at the engine three quick answers leave: the status shows 4.88 at
    Easy, and the engine still holds 4.878. *)
Lemma status_is_a_pure_read_witness :
  well_formed (after [quick; quick; quick] : AdaptiveEngine float) /\
  exists status,
    get_status (after [quick; quick; quick] : AdaptiveEngine float)
      = (Return status, after [quick; quick; quick]) /\
    status_p_score status = lit (488 # 100) /\
    status_difficulty status = "Easy" /\
    p_score (after [quick; quick; quick] : AdaptiveEngine float)
      = lit (4878 # 1000).
Proof.
  assert (well_formed (after [quick; quick; quick] : AdaptiveEngine float))
    as Hwf by by_evaluation.
  split; [exact Hwf|].
  destruct (proj1 status_is_a_pure_read float _ _ Hwf) as (d & Hd & Hst).
  eexists. split; [exact Hst|].
  vm_compute in Hd. injection Hd as <-.
  split; [|split]; reflexivity.
Defined.

(** C9 at the label "easy", which is none of the three, and at "Easy". *)
Lemma failure_modes_witness :
  (exists msg g',
     PuzzleGenerator.generate_puzzle "easy" PuzzleGenerator.sample_random
       = (Raise (ValueError msg), g')) /\
  (exists p g',
     PuzzleGenerator.generate_puzzle "Easy" PuzzleGenerator.sample_random
       = (Return p, g') /\
     PuzzleGenerator.difficulty p = "Easy") /\
  fst (PuzzleGenerator.generate_puzzle "Easy" PuzzleGenerator.sample_random)
    = Return {| PuzzleGenerator.question := "5 - 3";
                PuzzleGenerator.answer := 2;
                PuzzleGenerator.difficulty := "Easy" |}.
Proof.
  split; [|split].
  - apply (proj2 (proj1 failure_modes "easy" PuzzleGenerator.sample_random)).
    intros [E | [E | [E | []]]]; discriminate.
  - apply (proj1 (proj2 failure_modes) "Easy" PuzzleGenerator.sample_random).
    left. reflexivity.
  - vm_compute. reflexivity.
Defined.

(** C4, as stated, fails.  On the fourth quick answer of a session, which
    signals a transition, the score-change entry is [-4.878 * 0.9], a
    negative number, and not [delta * 0.9 = 1.8]; in binary64 and in exact
    arithmetic alike.  In binary64 it differs from [delta * 0.9] on the
    second quick answer too, which signals no transition: the entry is the
    double below 1.8. *)
Lemma score_change_counterexample :
  (exists r self',
     update_performance true (lit 2)
       (after [quick; quick; quick] : AdaptiveEngine float)
       = (Return r, self') /\
     transition_occurred r = true /\
     (score_change r <? lit 0)%py = true /\
     (lit 0 <? delta true (lit 2 : float) * lit (9 # 10))%py = true) /\
  (exists r self',
     update_performance true 2%Q
       (after [quick; quick; quick] : AdaptiveEngine Q)
       = (Return r, self') /\
     transition_occurred r = true /\
     (score_change r == - (43902 # 10000))%Q /\
     (delta true 2%Q * (9 # 10) == 18 # 10)%Q) /\
  (exists r self',
     update_performance true (lit 2) (after [quick] : AdaptiveEngine float)
       = (Return r, self') /\
     transition_occurred r = false /\
     score_change r = PrimFloat.next_down (lit (18 # 10)) /\
     (delta true (lit 2 : float) * lit (9 # 10))%py = lit (18 # 10)).
Proof.
  split; [|split]; do 2 eexists; by_evaluation.
Qed.



(** * Further properties of the code *)

(** ** What the puzzles look like *)

Section PuzzleShapes.

Import PuzzleGenerator.

Implicit Types (g : Random).

(** One step of a generator: a draw in a non-empty range, a choice in a
    non-empty list. *)
Ltac step v g' Hv :=
  rewrite ?bind_assoc;
  lazymatch goal with
  | |- context [mbind ?k (randint ?a ?b) ?g] =>
      let H := fresh "Hrun" in
      destruct (randint_returns a b g ltac:(lia)) as (v & g' & H & Hv);
      rewrite (bind_return (randint a b) k g g' v H); clear H; cbv beta
  | |- context [mbind ?k (choice ?l) ?g] =>
      let H := fresh "Hrun" in
      destruct (choice_returns l g ltac:(discriminate)) as (v & g' & H & Hv);
      rewrite (bind_return (choice l) k g g' v H); clear H; cbv beta
  end.

Ltac decide_strings :=
  repeat match goal with
  | |- context [String.eqb ?a ?b] =>
      let v := eval vm_compute in (String.eqb a b) in
      change (String.eqb a b) with v
  end; cbv iota.

(** X2.  Whatever [random] draws, an Easy puzzle is a sum [a + b] of two
    numbers of 1..9, or a difference [a - b] with [a] in 5..9 and [b] in
    1..a; its question shows the two operands and its answer is their sum
    or difference. *)
Theorem easy_puzzle_shape g :
  exists p g' a b,
    _generate_easy_puzzle g = (Return p, g') /\
    difficulty p = "Easy" /\
    ((1 <= a <= 9 /\ 1 <= b <= 9 /\
      question p = str a +:+ " + " +:+ str b /\ answer p = a + b) \/
     (5 <= a <= 9 /\ 1 <= b <= a /\
      question p = str a +:+ " - " +:+ str b /\ answer p = a - b))%Z.
Proof.
  unfold _generate_easy_puzzle.
  step op g1 Hop. destruct Hop as [<- | [<- | []]]; decide_strings;
    step a g2 Ha; step b g3 Hb; eexists _, _, a, b;
    (split; [reflexivity|]); (split; [reflexivity|]); cbn; auto.
Qed.

(** X3.  A Medium puzzle is a sum of two numbers of 10..50, a difference
    [a - b] with [a] in 20..99 and [b] in 10..a, or a product of a number of
    2..9 by a number of 2..12, with the matching answer. *)
Theorem medium_puzzle_shape g :
  exists p g' a b,
    _generate_medium_puzzle g = (Return p, g') /\
    difficulty p = "Medium" /\
    ((10 <= a <= 50 /\ 10 <= b <= 50 /\
      question p = str a +:+ " + " +:+ str b /\ answer p = a + b) \/
     (20 <= a <= 99 /\ 10 <= b <= a /\
      question p = str a +:+ " - " +:+ str b /\ answer p = a - b) \/
     (2 <= a <= 9 /\ 2 <= b <= 12 /\
      question p = str a +:+ " × " +:+ str b /\ answer p = a * b))%Z.
Proof.
  unfold _generate_medium_puzzle.
  step op g1 Hop. destruct Hop as [<- | [<- | [<- | []]]]; decide_strings;
    step a g2 Ha; step b g3 Hb; eexists _, _, a, b;
    (split; [reflexivity|]); (split; [reflexivity|]); cbn; auto 6.
Qed.

(** X4.  A Hard puzzle is a two-step problem [(a + b) × c] with [a], [b] in
    5..15 and [c] in 2..8, a sum of two numbers of 100..500, a difference
    [a - b] with [a] in 200..999 and [b] in 100..a, or a division whose
    dividend is the product of the answer (5..20) by the divisor (3..12),
    so that it has no remainder. *)
Theorem hard_puzzle_shape g :
  exists p g',
    _generate_hard_puzzle g = (Return p, g') /\
    difficulty p = "Hard" /\
    ((exists a b c,
        5 <= a <= 15 /\ 5 <= b <= 15 /\ 2 <= c <= 8 /\
        question p = "(" +:+ str a +:+ " + " +:+ str b +:+ ") × " +:+ str c /\
        answer p = (a + b) * c) \/
     (exists a b,
        100 <= a <= 500 /\ 100 <= b <= 500 /\
        question p = str a +:+ " + " +:+ str b /\ answer p = a + b) \/
     (exists a b,
        200 <= a <= 999 /\ 100 <= b <= a /\
        question p = str a +:+ " - " +:+ str b /\ answer p = a - b) \/
     (exists quotient divisor,
        5 <= quotient <= 20 /\ 3 <= divisor <= 12 /\
        question p = str (quotient * divisor) +:+ " ÷ " +:+ str divisor /\
        answer p = quotient /\
        (quotient * divisor) mod divisor = 0))%Z.
Proof.
  unfold _generate_hard_puzzle.
  step ty g1 Hty. destruct Hty as [<- | [<- | [<- | []]]]; decide_strings.
  - step a g2 Ha. step b g3 Hb. step c g4 Hc. eexists _, _.
    do 2 (split; [reflexivity|]). left. exists a, b, c. cbn. auto.
  - step op g2 Hop. destruct Hop as [<- | [<- | []]]; decide_strings;
      step a g3 Ha; step b g4 Hb; eexists _, _;
      (do 2 (split; [reflexivity|])); right; [left | right; left];
      exists a, b; cbn; auto.
  - step q g2 Hq. step d g3 Hd. eexists _, _.
    do 2 (split; [reflexivity|]). do 3 right. exists q, d. cbn.
    repeat split; try lia. apply Z.mod_mul. lia.
Qed.

Lemma easy_answer_bounds g :
  exists p g', _generate_easy_puzzle g = (Return p, g') /\
    difficulty p = "Easy" /\ (0 <= answer p <= 18)%Z.
Proof.
  unfold _generate_easy_puzzle.
  step op g1 Hop. destruct Hop as [<- | [<- | []]]; decide_strings;
    step a g2 Ha; step b g3 Hb; eexists _, _;
    (do 2 (split; [reflexivity|])); cbn; lia.
Qed.

Lemma medium_answer_bounds g :
  exists p g', _generate_medium_puzzle g = (Return p, g') /\
    difficulty p = "Medium" /\ (0 <= answer p <= 108)%Z.
Proof.
  unfold _generate_medium_puzzle.
  step op g1 Hop. destruct Hop as [<- | [<- | [<- | []]]]; decide_strings;
    step a g2 Ha; step b g3 Hb; eexists _, _;
    (do 2 (split; [reflexivity|])); cbn; nia.
Qed.

Lemma hard_answer_bounds g :
  exists p g', _generate_hard_puzzle g = (Return p, g') /\
    difficulty p = "Hard" /\ (0 <= answer p <= 1000)%Z.
Proof.
  unfold _generate_hard_puzzle.
  step ty g1 Hty. destruct Hty as [<- | [<- | [<- | []]]]; decide_strings.
  - step a g2 Ha. step b g3 Hb. step c g4 Hc. eexists _, _.
    do 2 (split; [reflexivity|]). cbn. nia.
  - step op g2 Hop. destruct Hop as [<- | [<- | []]]; decide_strings;
      step a g3 Ha; step b g4 Hb; eexists _, _;
      (do 2 (split; [reflexivity|])); cbn; lia.
  - step q g2 Hq. step d g3 Hd. eexists _, _.
    do 2 (split; [reflexivity|]). cbn. lia.
Qed.

(** X5.  For each of the three labels [generate_puzzle] returns a puzzle of
    that difficulty whose answer is never negative, and is at most 18 on
    Easy, 108 on Medium and 1000 on Hard. *)
Theorem puzzle_answer_bounds (d : string) g :
  In d ["Easy"; "Medium"; "Hard"] ->
  exists p g',
    generate_puzzle d g = (Return p, g') /\
    difficulty p = d /\
    (0 <= answer p)%Z /\
    (d = "Easy" -> answer p <= 18)%Z /\
    (d = "Medium" -> answer p <= 108)%Z /\
    (d = "Hard" -> answer p <= 1000)%Z.
Proof.
  intros [<- | [<- | [<- | []]]]; unfold generate_puzzle.
  - change (operations !! "Easy") with (Some _generate_easy_puzzle).
    destruct (easy_answer_bounds g) as (p & g' & Hrun & Hd & Ha).
    exists p, g'. repeat split; try assumption; try lia; discriminate.
  - change (operations !! "Medium") with (Some _generate_medium_puzzle).
    destruct (medium_answer_bounds g) as (p & g' & Hrun & Hd & Ha).
    exists p, g'. repeat split; try assumption; try lia; discriminate.
  - change (operations !! "Hard") with (Some _generate_hard_puzzle).
    destruct (hard_answer_bounds g) as (p & g' & Hrun & Hd & Ha).
    exists p, g'. repeat split; try assumption; try lia; discriminate.
Qed.

End PuzzleShapes.

(** X5 at the label "Medium" and the sample generator. *)
Lemma puzzle_answer_bounds_witness :
  In "Medium" ["Easy"; "Medium"; "Hard"] /\
  exists p g',
    PuzzleGenerator.generate_puzzle "Medium" PuzzleGenerator.sample_random
      = (Return p, g') /\
    (0 <= PuzzleGenerator.answer p <= 108)%Z.
Proof.
  assert (In "Medium" ["Easy"; "Medium"; "Hard"]) as Hin
    by (right; left; reflexivity).
  split; [exact Hin|].
  destruct (puzzle_answer_bounds "Medium" PuzzleGenerator.sample_random Hin)
    as (p & g' & Hrun & _ & Hlo & _ & Hhi & _).
  exists p, g'. split; [exact Hrun|]. split; [exact Hlo | exact (Hhi eq_refl)].
Defined.

(** ** The engine and the generator together *)

Section Wiring.

Context {F : Type} `{PyFloat F}.

(** X1.  The driver asks the generator for a puzzle of the engine's current
    difficulty.  Whatever the outcomes of the session so far and whatever
    [random] draws, the property [current_difficulty] returns a label, the
    generator accepts it, and the puzzle carries that label: the request
    never raises. *)
Theorem puzzle_request_never_fails (turns : list (bool * F))
    (g : PuzzleGenerator.Random) :
  exists d p g',
    current_difficulty (after turns) = (Return d, after turns) /\
    PuzzleGenerator.generate_puzzle d g = (Return p, g') /\
    PuzzleGenerator.difficulty p = d.
Proof.
  pose proof (after_well_formed turns) as Hwf.
  destruct (current_difficulty_returns _ Hwf) as (d & Hd & Hi).
  assert (In d ["Easy"; "Medium"; "Hard"]) as Hin.
  { destruct (level_cases _ Hwf) as [[_ E] | [[_ E] | [_ E]]];
      rewrite E in Hi; injection Hi as <-; cbn; auto. }
  destruct (generate_puzzle_known d g Hin) as (p & g' & Hp & Hpd).
  exists d, p, g'. auto.
Qed.

End Wiring.

(** ** The engine on any attributes *)

Section EngineEdges.

Context {F : Type} `{PyFloat F}.
Implicit Types (self : AdaptiveEngine F) (t : F) (c : bool).

Ltac case_if E :=
  lazymatch goal with
  | |- context [if ?c then _ else _] => destruct c eqn:E
  end.

Lemma py_index_in_range {A} (l : list A) (i : Z) :
  (- Z.of_nat (List.length l) <= i < Z.of_nat (List.length l))%Z ->
  exists x, py_index l i = Some x.
Proof.
  intros Hi. unfold py_index. cbv zeta.
  set (n := Z.of_nat (List.length l)) in *.
  set (j := (if (i <? 0)%Z then (i + n)%Z else i)).
  assert (0 <= j < n)%Z as Hj by (subst j; destruct (i <? 0)%Z eqn:E; lia).
  destruct ((j <? 0)%Z || (n <=? j)%Z) eqn:E; [lia|].
  destruct (nth_error l (Z.to_nat j)) as [x|] eqn:Ex; [eauto|].
  apply nth_error_None in Ex. lia.
Qed.

Lemma py_index_out_of_range {A} (l : list A) (i : Z) :
  ~ (- Z.of_nat (List.length l) <= i < Z.of_nat (List.length l))%Z ->
  py_index l i = None.
Proof.
  intros Hi. unfold py_index. cbv zeta.
  set (n := Z.of_nat (List.length l)) in *.
  destruct (i <? 0)%Z eqn:E.
  - destruct ((i + n <? 0)%Z || (n <=? i + n)%Z) eqn:E'; [reflexivity | lia].
  - destruct ((i <? 0)%Z || (n <=? i)%Z) eqn:E'; [reflexivity | lia].
Qed.

Lemma current_difficulty_in_range self :
  (- Z.of_nat (List.length (difficulty_levels self))
   <= current_difficulty_index self
   < Z.of_nat (List.length (difficulty_levels self)))%Z ->
  exists d, current_difficulty self = (Return d, self).
Proof.
  intros Hi. destruct (py_index_in_range _ _ Hi) as (d & Hd).
  exists d. unfold current_difficulty.
  rewrite (bind_return _ _ _ _ _ (attr_return difficulty_levels self)).
  rewrite (bind_return _ _ _ _ _ (attr_return current_difficulty_index self)).
  now rewrite Hd.
Qed.

Lemma current_difficulty_out_of_range self :
  ~ (- Z.of_nat (List.length (difficulty_levels self))
     <= current_difficulty_index self
     < Z.of_nat (List.length (difficulty_levels self)))%Z ->
  current_difficulty self = (Raise IndexError, self).
Proof.
  intros Hi. unfold current_difficulty.
  rewrite (bind_return _ _ _ _ _ (attr_return difficulty_levels self)).
  rewrite (bind_return _ _ _ _ _ (attr_return current_difficulty_index self)).
  now rewrite (py_index_out_of_range _ _ Hi).
Qed.

(** The transition check keeps the levels and the decay factor, and an
    index that is in range. *)
Lemma check_keeps_frame self :
  exists b self',
    _check_difficulty_transition self = (Return b, self') /\
    difficulty_levels self' = difficulty_levels self /\
    decay_factor self' = decay_factor self /\
    ((- Z.of_nat (List.length (difficulty_levels self))
      <= current_difficulty_index self
      < Z.of_nat (List.length (difficulty_levels self)))%Z ->
     (- Z.of_nat (List.length (difficulty_levels self))
      <= current_difficulty_index self'
      < Z.of_nat (List.length (difficulty_levels self)))%Z).
Proof.
  rewrite check_difficulty_transition_run. cbv zeta.
  case_if Eup; [|case_if Edn];
    eexists _, _; (split; [reflexivity|]); cbn; repeat split; lia.
Qed.

(** X6.  [update_performance] and [get_status] raise nothing but
    [IndexError], and only on an engine whose index is outside
    [-len(levels), len(levels))], which they leave untouched.  On every
    other engine both return; the update keeps the levels, the decay factor
    and an index in range, and the status query keeps the whole engine. *)
Theorem engine_raises_only_on_bad_index self c t :
  let n := Z.of_nat (List.length (difficulty_levels self)) in
  let i := current_difficulty_index self in
  ((- n <= i < n)%Z ->
     (exists r self',
        update_performance c t self = (Return r, self') /\
        difficulty_levels self' = difficulty_levels self /\
        decay_factor self' = decay_factor self /\
        (- n <= current_difficulty_index self' < n)%Z) /\
     (exists status, get_status self = (Return status, self))) /\
  (~ (- n <= i < n)%Z ->
     update_performance c t self = (Raise IndexError, self) /\
     get_status self = (Raise IndexError, self)).
Proof.
  intros n i. split; intros Hi.
  - destruct (current_difficulty_in_range self Hi) as (d & Hd). split.
    + set (mid := set_p_score (decayed_score c t self) self).
      destruct (check_keeps_frame mid) as (b & self' & Hb & Hl & Hf & Hi').
      specialize (Hi' Hi).
      assert (- Z.of_nat (List.length (difficulty_levels self'))
              <= current_difficulty_index self'
              < Z.of_nat (List.length (difficulty_levels self')))%Z as Hv
        by (rewrite Hl; exact Hi').
      destruct (current_difficulty_in_range self' Hv) as (d' & Hd').
      eexists _, self'. split; [|auto].
      unfold update_performance.
      rewrite (bind_return _ _ _ _ _ (attr_return p_score self)).
      rewrite (bind_return _ _ _ _ _ Hd).
      rewrite (bind_return _ _ _ _ _ (score_update_returns self c t)).
      pose proof (score_then_decay self c t) as Hsd. fold mid in Hsd.
      rewrite (bind_return _ _ _ _ _ (score_update_returns self c t)) in Hsd.
      rewrite (bind_return _ _ _ _ _ Hsd).
      rewrite (bind_return _ _ _ _ _ Hb).
      rewrite (bind_return _ _ _ _ _ (attr_return p_score self')).
      rewrite (bind_return _ _ _ _ _ (attr_return decay_factor self')).
      rewrite (bind_return _ _ _ _ _ Hd').
      reflexivity.
    + eexists. unfold get_status.
      rewrite (bind_return _ _ _ _ _ (attr_return p_score self)).
      rewrite (bind_return _ _ _ _ _ Hd).
      reflexivity.
  - pose proof (current_difficulty_out_of_range self Hi) as Hd. split.
    + unfold update_performance.
      rewrite (bind_return _ _ _ _ _ (attr_return p_score self)).
      unfold mbind at 1, method_bind at 1. now rewrite Hd.
    + unfold get_status.
      rewrite (bind_return _ _ _ _ _ (attr_return p_score self)).
      unfold mbind at 1, method_bind at 1. now rewrite Hd.
Qed.

Lemma update_leaves_nothing_pending `{!PyFloatZero F} self c t :
  well_formed self ->
  no_pending_transition (snd (update_performance c t self)).
Proof.
  intros Hwf.
  destruct (update_performance_run self c t Hwf)
    as (d & d' & b & self' & _ & Hb & _ & _ & Hrun).
  rewrite Hrun. cbn [snd].
  rewrite check_on_well_formed in Hb by exact Hwf. cbn in Hb.
  revert Hb. set (p := decayed_score c t self).
  set (i := current_difficulty_index self).
  destruct (p >=? lit 5)%py eqn:Eup; destruct (i <? 2)%Z eqn:Ei;
    destruct (p <=? - lit 3)%py eqn:Edn; destruct (i >? 0)%Z eqn:Ej;
    cbn; intros [= <- <-]; split; cbn; fold i; fold p; intros Hlt;
    try assumption; try lia;
    try apply zero_not_ge_5; try apply zero_not_le_m3.
Qed.

(** A session is its first call, then the rest. *)
Lemma session_step (turns : list (bool * F)) self c t r self1 :
  well_formed self1 ->
  update_performance c t self = (Return r, self1) ->
  snd (session ((c, t) :: turns) self) = snd (session turns self1).
Proof.
  intros Hwf1 Hr.
  destruct (session_returns turns self1 Hwf1) as (rs & self' & Hrs & _).
  cbn [session].
  rewrite (bind_return _ _ _ _ _ Hr), (bind_return _ _ _ _ _ Hrs).
  now rewrite Hrs.
Qed.

Lemma session_leaves_nothing_pending `{!PyFloatZero F}
    (turns : list (bool * F)) self :
  well_formed self -> no_pending_transition self ->
  no_pending_transition (snd (session turns self)).
Proof.
  revert self. induction turns as [|[c t] turns IH]; intros self Hwf Hinv.
  - exact Hinv.
  - destruct (update_performance_returns self c t Hwf)
      as (r & self1 & Hr & Hwf1).
    pose proof (update_leaves_nothing_pending self c t Hwf) as Hinv1.
    rewrite Hr in Hinv1. cbn [snd] in Hinv1.
    specialize (IH self1 Hwf1 Hinv1).
    destruct (session_returns turns self1 Hwf1) as (rs & self' & Hrs & _).
    cbn [session].
    rewrite (bind_return _ _ _ _ _ Hr), (bind_return _ _ _ _ _ Hrs).
    rewrite Hrs in IH. exact IH.
Qed.

Lemma nothing_pending_at_start `{!PyFloatZero F} :
  no_pending_transition (@__init__ F _).
Proof.
  split; intros _; cbn; [apply zero_not_ge_5 | apply zero_not_le_m3].
Qed.

(** X7.  After every call of a session the stored score meets no threshold
    the level could act on: below Hard it is not [>= 5.0], above Easy it is
    not [<= -3.0]; at Medium it lies strictly between the two. *)
Theorem no_transition_left_pending `{!PyFloatZero F}
    (turns : list (bool * F)) :
  no_pending_transition (after turns).
Proof.
  apply session_leaves_nothing_pending.
  - apply well_formed_init.
  - apply nothing_pending_at_start.
Qed.

End EngineEdges.

#[export] Instance PyFloatZero_binary64 : PyFloatZero float.
Proof. split; reflexivity. Qed.

#[export] Instance PyFloatZero_Q : PyFloatZero Q.
Proof. split; reflexivity. Qed.

(** ** How the level moves, in exact arithmetic *)

Section ExactDynamics.

Implicit Types (self : AdaptiveEngine Q) (t : Q) (c : bool).

Lemma after_settled (turns : list (bool * Q)) : settled (after turns).
Proof.
  split; [apply after_well_formed|].
  destruct (session_leaves_nothing_pending turns __init__ well_formed_init
              nothing_pending_at_start) as (Hup & Hdn).
  fold (after turns) in Hup, Hdn. unfold fgeb in Hup. cbn in Hup, Hdn.
  split; intros Hi.
  - apply Qnot_le_lt. intros Hle. apply Qle_bool_iff in Hle.
    rewrite Hup in Hle by exact Hi. discriminate.
  - apply Qnot_le_lt. intros Hle. apply Qle_bool_iff in Hle.
    rewrite Hdn in Hle by lia. discriminate.
Qed.

(** One call, by the place of the decayed score. *)
Lemma exact_step self c t :
  well_formed self ->
  let d := ((p_score self + delta c t) * (9 # 10))%Q in
  let i := current_difficulty_index self in
  exists r self',
    update_performance c t self = (Return r, self') /\
    well_formed self' /\
    ((5 <= d)%Q /\ (i < 2)%Z /\
     current_difficulty_index self' = (i + 1)%Z /\ p_score self' = 0%Q /\
     transition_occurred r = true \/
     ~ ((5 <= d)%Q /\ (i < 2)%Z) /\ (d <= - (3))%Q /\ (0 < i)%Z /\
     current_difficulty_index self' = (i - 1)%Z /\ p_score self' = 0%Q /\
     transition_occurred r = true \/
     ~ ((5 <= d)%Q /\ (i < 2)%Z) /\ ~ ((d <= - (3))%Q /\ (0 < i)%Z) /\
     current_difficulty_index self' = i /\ p_score self' = d /\
     transition_occurred r = false).
Proof.
  intros Hwf d i.
  destruct (update_performance_run self c t Hwf)
    as (l & l' & b & self' & _ & Hb & _ & Hwf' & Hrun).
  rewrite Hrun. eexists _, self'. do 2 (split; [reflexivity || assumption|]).
  rewrite check_on_well_formed in Hb by exact Hwf. cbn in Hb.
  rewrite decayed_score_eq in Hb.
  assert (decay_factor self = (9 # 10)%Q) as Hdecay by apply Hwf.
  rewrite Hdecay in Hb. unfold fgeb in Hb. cbn in Hb.
  subst d i.
  set (d := ((p_score self + delta c t) * (9 # 10))%Q) in *.
  set (i := current_difficulty_index self) in *.
  destruct (Qle_bool 5 d) eqn:Eup; destruct (i <? 2)%Z eqn:Ei;
    destruct (Qle_bool d (- (3))) eqn:Edn; destruct (i >? 0)%Z eqn:Ej;
    cbn in Hb; injection Hb as <- <-; cbn;
    rewrite ?Qle_bool_iff in *;
    try (apply not_true_iff_false in Eup; rewrite Qle_bool_iff in Eup);
    try (apply not_true_iff_false in Edn; rewrite Qle_bool_iff in Edn);
    try (left; repeat split; (assumption || lia));
    try (right; left; repeat split; try assumption; try lia;
         intros [? ?]; (contradiction || lia));
    right; right; repeat split; try assumption; try lia;
      intros [? ?]; (contradiction || lia).
Qed.

Lemma delta_correct_quick t : (t <= 5)%Q -> delta true t = 2%Q.
Proof.
  intros Ht. unfold delta. cbn. apply Qle_bool_iff in Ht. now rewrite Ht.
Qed.

Lemma delta_correct_slow t : ~ (t <= 5)%Q -> delta true t = 1%Q.
Proof.
  intros Ht. unfold delta. cbn.
  destruct (Qle_bool t 5) eqn:E; [|reflexivity].
  apply Qle_bool_iff in E. contradiction.
Qed.

Lemma delta_incorrect t : delta false t = (- (3))%Q.
Proof. reflexivity. Qed.

(** X8.  In a session a correct answer never lowers the level and an
    incorrect answer never raises it. *)
Theorem answers_move_the_level_their_way (turns : list (bool * Q)) c t :
  exists r self',
    update_performance c t (after turns) = (Return r, self') /\
    (c = true ->
       (current_difficulty_index (after turns)
        <= current_difficulty_index self')%Z) /\
    (c = false ->
       (current_difficulty_index self'
        <= current_difficulty_index (after turns))%Z).
Proof.
  destruct (after_settled turns) as (Hwf & Hup & Hdn).
  destruct (exact_step (after turns) c t Hwf)
    as (r & self' & Hrun & _ & Hcases).
  exists r, self'. split; [exact Hrun|].
  pose proof (final_score_bounded turns) as Hrange.
  unfold final_score in Hrange.
  split; intros ->.
  - assert (delta true t = 2%Q \/ delta true t = 1%Q) as [E | E].
    { destruct (Qlt_le_dec 5 t) as [Hslow | Hquick].
      - right. apply delta_correct_slow. intros Hle. lra.
      - left. apply delta_correct_quick, Hquick. }
    all: rewrite E in Hcases;
      destruct Hcases
        as [(_ & _ & -> & _) | [(_ & Hd & Hi & _) | (_ & _ & -> & _)]];
      try lia; specialize (Hdn Hi); lra.
  - rewrite delta_incorrect in Hcases.
    destruct Hcases as [(Hd & Hi & _) | [(_ & _ & _ & -> & _) | (_ & _ & -> & _)]];
      try lia. specialize (Hup Hi). lra.
Qed.

(** X9.  When a call of a session changes the level, told from the score
    before the call: a correct answer within 5 seconds raises the level
    when the score is at least 32/9 and the level is not Hard, a slower
    correct answer when it is at least 41/9, and an incorrect answer lowers
    the level when the score is at most -1/3 and the level is not Easy; no
    other call signals a transition. *)
Theorem level_change_conditions (turns : list (bool * Q)) c t :
  let s := p_score (after turns) in
  let i := current_difficulty_index (after turns) in
  exists r self',
    update_performance c t (after turns) = (Return r, self') /\
    (transition_occurred r = true <->
       c = true /\ (t <= 5)%Q /\ (i < 2)%Z /\ (32 # 9 <= s)%Q \/
       c = true /\ ~ (t <= 5)%Q /\ (i < 2)%Z /\ (41 # 9 <= s)%Q \/
       c = false /\ (0 < i)%Z /\ (s <= - (1 # 3))%Q).
Proof.
  intros s i.
  destruct (after_settled turns) as (Hwf & Hup & Hdn).
  destruct (exact_step (after turns) c t Hwf)
    as (r & self' & Hrun & _ & Hcases).
  exists r, self'. split; [exact Hrun|].
  fold s i in Hcases, Hup, Hdn.
  destruct c.
  - destruct (Qlt_le_dec 5 t) as [Hslow | Hquick].
    + assert (~ (t <= 5)%Q) as Hn by (intros Hle; lra).
      rewrite (delta_correct_slow t Hn) in Hcases.
      destruct Hcases as [(Hd & Hi & _ & _ & ->)
                         | [(_ & Hd & Hi & _) | (Hnup & _ & _ & _ & ->)]].
      * split; [intros _|reflexivity]. right; left.
        repeat split; try assumption. lra.
      * specialize (Hdn Hi). lra.
      * split; [discriminate|].
        intros [(_ & Hle & _) | [(_ & _ & Hi & Hs) | (Hf & _)]];
          try contradiction; try discriminate.
        exfalso. apply Hnup. split; [lra | exact Hi].
    + rewrite (delta_correct_quick t Hquick) in Hcases.
      destruct Hcases as [(Hd & Hi & _ & _ & ->)
                         | [(_ & Hd & Hi & _) | (Hnup & _ & _ & _ & ->)]].
      * split; [intros _|reflexivity]. left.
        repeat split; try assumption. lra.
      * specialize (Hdn Hi). lra.
      * split; [discriminate|].
        intros [(_ & _ & Hi & Hs) | [(_ & Hn & _) | (Hf & _)]];
          try contradiction; try discriminate.
        exfalso. apply Hnup. split; [lra | exact Hi].
  - rewrite delta_incorrect in Hcases.
    destruct Hcases as [(Hd & Hi & _)
                       | [(_ & Hd & Hi & _ & _ & ->) | (_ & Hndn & _ & _ & ->)]].
    + specialize (Hup Hi). lra.
    + split; [intros _|reflexivity]. right; right.
      repeat split; try assumption. lra.
    + split; [discriminate|].
      intros [(Hf & _) | [(Hf & _) | (_ & Hi & Hs)]]; try discriminate.
      exfalso. apply Hndn. split; [lra | exact Hi].
Qed.

(** A call on a score of at most [B] cannot raise the level while
    [(B + 2) * 0.9] is below the upper threshold. *)
Lemma capped_step self c t (B : Q) :
  well_formed self ->
  (p_score self <= B)%Q -> (- (2) <= B)%Q -> ((B + 2) * (9 # 10) < 5)%Q ->
  exists r self',
    update_performance c t self = (Return r, self') /\
    well_formed self' /\
    (current_difficulty_index self' <= current_difficulty_index self)%Z /\
    (p_score self' <= (B + 2) * (9 # 10))%Q.
Proof.
  intros Hwf Hp HB Hcap.
  destruct (exact_step self c t Hwf) as (r & self' & Hrun & Hwf' & Hcases).
  exists r, self'. do 2 (split; [assumption|]).
  destruct (delta_cases c t) as [E | [E | E]]; rewrite E in Hcases;
    destruct Hcases
      as [(Hd & _) | [(_ & _ & _ & -> & -> & _) | (_ & _ & -> & -> & _)]];
    try lra; split; try lia; lra.
Qed.

(** X10.  Raising the level takes at least four calls from a score of zero
    or less, so at least four calls after the start and after every
    transition: whatever the outcomes, three calls or fewer leave the level
    where it was, or lower. *)
Theorem level_up_takes_four_calls self (turns : list (bool * Q)) :
  well_formed self ->
  (p_score self <= 0)%Q ->
  (List.length turns <= 3)%nat ->
  (current_difficulty_index (snd (session turns self))
   <= current_difficulty_index self)%Z.
Proof.
  intros Hwf Hp Hlen.
  destruct turns as [|[c1 t1] turns]; [cbn; lia|].
  destruct (capped_step self c1 t1 0 Hwf Hp ltac:(lra) ltac:(lra))
    as (r1 & s1 & Hr1 & Hwf1 & Hi1 & Hp1).
  rewrite (session_step turns self c1 t1 r1 s1 Hwf1 Hr1).
  destruct turns as [|[c2 t2] turns]; [cbn; lia|].
  destruct (capped_step s1 c2 t2 _ Hwf1 Hp1 ltac:(lra) ltac:(lra))
    as (r2 & s2 & Hr2 & Hwf2 & Hi2 & Hp2).
  rewrite (session_step turns s1 c2 t2 r2 s2 Hwf2 Hr2).
  destruct turns as [|[c3 t3] turns]; [cbn; lia|].
  destruct (capped_step s2 c3 t3 _ Hwf2 Hp2 ltac:(lra) ltac:(lra))
    as (r3 & s3 & Hr3 & Hwf3 & Hi3 & Hp3).
  rewrite (session_step turns s2 c3 t3 r3 s3 Hwf3 Hr3).
  destruct turns as [|? turns]; [cbn; lia|]. cbn in Hlen. lia.
Qed.

(** A quick correct answer on a non-negative score. *)
Lemma quick_step self t :
  well_formed self -> (0 <= p_score self)%Q -> (t <= 5)%Q ->
  let d := ((p_score self + 2) * (9 # 10))%Q in
  let i := current_difficulty_index self in
  exists r self',
    update_performance true t self = (Return r, self') /\
    well_formed self' /\
    ((5 <= d)%Q /\ (i < 2)%Z /\
     current_difficulty_index self' = (i + 1)%Z /\ p_score self' = 0%Q \/
     ~ ((5 <= d)%Q /\ (i < 2)%Z) /\
     current_difficulty_index self' = i /\ p_score self' = d).
Proof.
  intros Hwf Hp Ht d i.
  destruct (exact_step self true t Hwf) as (r & self' & Hrun & Hwf' & Hcases).
  rewrite (delta_correct_quick t Ht) in Hcases. fold d i in Hcases.
  exists r, self'. do 2 (split; [assumption|]).
  destruct Hcases
    as [(Hd & Hi & Hi' & Hp' & _)
       | [(_ & Hd & _) | (Hn & _ & Hi' & Hp' & _)]]; auto.
  subst d. lra.
Qed.

(** X11.  Below Hard, four correct answers in a row, each within 5
    seconds, raise the level by exactly one when they start from a score
    that is not negative. *)
Theorem four_quick_answers_raise_the_level self (t1 t2 t3 t4 : Q) :
  well_formed self ->
  (current_difficulty_index self < 2)%Z ->
  (0 <= p_score self)%Q ->
  (t1 <= 5)%Q -> (t2 <= 5)%Q -> (t3 <= 5)%Q -> (t4 <= 5)%Q ->
  current_difficulty_index
    (snd (session [(true, t1); (true, t2); (true, t3); (true, t4)] self))
  = (current_difficulty_index self + 1)%Z.
Proof.
  intros Hwf Hi Hp H1 H2 H3 H4.
  destruct (quick_step self t1 Hwf Hp H1) as (r1 & s1 & Hr1 & Hwf1 & C1).
  rewrite (session_step _ self true t1 r1 s1 Hwf1 Hr1).
  assert (0 <= p_score s1)%Q as Hp1
    by (destruct C1 as [(_ & _ & _ & ->) | (_ & _ & ->)]; lra).
  destruct (quick_step s1 t2 Hwf1 Hp1 H2) as (r2 & s2 & Hr2 & Hwf2 & C2).
  rewrite (session_step _ s1 true t2 r2 s2 Hwf2 Hr2).
  assert (0 <= p_score s2)%Q as Hp2
    by (destruct C2 as [(_ & _ & _ & ->) | (_ & _ & ->)]; lra).
  destruct (quick_step s2 t3 Hwf2 Hp2 H3) as (r3 & s3 & Hr3 & Hwf3 & C3).
  rewrite (session_step _ s2 true t3 r3 s3 Hwf3 Hr3).
  assert (0 <= p_score s3)%Q as Hp3
    by (destruct C3 as [(_ & _ & _ & ->) | (_ & _ & ->)]; lra).
  destruct (quick_step s3 t4 Hwf3 Hp3 H4) as (r4 & s4 & Hr4 & Hwf4 & C4).
  rewrite (session_step [] s3 true t4 r4 s4 Hwf4 Hr4). cbn [session snd].
  unfold mret, method_ret. cbn [snd].
  destruct C1 as [(D1 & I1 & E1 & P1) | (N1 & E1 & P1)];
    destruct C2 as [(D2 & I2 & E2 & P2) | (N2 & E2 & P2)];
    destruct C3 as [(D3 & I3 & E3 & P3) | (N3 & E3 & P3)];
    destruct C4 as [(D4 & I4 & E4 & P4) | (N4 & E4 & P4)];
    rewrite ?P1, ?P2, ?P3 in *; try lra; try lia.
  all: try (exfalso; first
         [ apply N4; split; [lra | lia]
         | apply N3; split; [lra | lia]
         | apply N2; split; [lra | lia]
         | apply N1; split; [lra | lia] ]).
Qed.

(** An incorrect answer on a score of at most 5. *)
Lemma wrong_step self t :
  well_formed self -> (p_score self <= 5)%Q ->
  let d := ((p_score self - 3) * (9 # 10))%Q in
  let i := current_difficulty_index self in
  exists r self',
    update_performance false t self = (Return r, self') /\
    well_formed self' /\
    ((d <= - (3))%Q /\ (0 < i)%Z /\
     current_difficulty_index self' = (i - 1)%Z /\ p_score self' = 0%Q \/
     ~ ((d <= - (3))%Q /\ (0 < i)%Z) /\
     current_difficulty_index self' = i /\ p_score self' = d).
Proof.
  intros Hwf Hp d i.
  destruct (exact_step self false t Hwf)
    as (r & self' & Hrun & Hwf' & Hcases).
  rewrite delta_incorrect in Hcases. fold i in Hcases.
  exists r, self'. do 2 (split; [assumption|]).
  destruct Hcases
    as [(Hd & _) | [(_ & Hd & Hi & Hi' & Hp' & _)
                   | (_ & Hn & Hi' & Hp' & _)]].
  - lra.
  - left. subst d. repeat split; assumption.
  - right. subst d. split; [|split; [assumption | exact Hp']].
    intros [Hd Hi]. apply Hn. split; [exact Hd | exact Hi].
Qed.

(** X12.  Above Easy, three incorrect answers in a row lower the level by
    at least one when they start from a score of at most 5, as every score
    stored below Hard is. *)
Theorem three_wrong_answers_lower_the_level self (t1 t2 t3 : Q) :
  well_formed self ->
  (0 < current_difficulty_index self)%Z ->
  (p_score self <= 5)%Q ->
  (current_difficulty_index
     (snd (session [(false, t1); (false, t2); (false, t3)] self))
   <= current_difficulty_index self - 1)%Z.
Proof.
  intros Hwf Hi Hp.
  destruct (wrong_step self t1 Hwf Hp) as (r1 & s1 & Hr1 & Hwf1 & C1).
  rewrite (session_step _ self false t1 r1 s1 Hwf1 Hr1).
  assert (p_score s1 <= 5)%Q as Hp1
    by (destruct C1 as [(_ & _ & _ & ->) | (_ & _ & ->)]; lra).
  destruct (wrong_step s1 t2 Hwf1 Hp1) as (r2 & s2 & Hr2 & Hwf2 & C2).
  rewrite (session_step _ s1 false t2 r2 s2 Hwf2 Hr2).
  assert (p_score s2 <= 5)%Q as Hp2
    by (destruct C2 as [(_ & _ & _ & ->) | (_ & _ & ->)]; lra).
  destruct (wrong_step s2 t3 Hwf2 Hp2) as (r3 & s3 & Hr3 & Hwf3 & C3).
  rewrite (session_step [] s2 false t3 r3 s3 Hwf3 Hr3). cbn [session snd].
  unfold mret, method_ret. cbn [snd].
  destruct C1 as [(D1 & I1 & E1 & P1) | (N1 & E1 & P1)];
    destruct C2 as [(D2 & I2 & E2 & P2) | (N2 & E2 & P2)];
    destruct C3 as [(D3 & I3 & E3 & P3) | (N3 & E3 & P3)];
    rewrite ?P1, ?P2 in *; try lia.
  exfalso.
  assert (- (3) < (p_score self - 3) * (9 # 10))%Q as G1.
  { apply Qnot_le_lt. intros Hle. apply N1. split; [exact Hle | lia]. }
  apply N3. split; [lra | lia].
Qed.

End ExactDynamics.

(** ** The further properties at concrete engines *)

(** X6 at an engine whose index was set to 3: the update raises
    [IndexError] and changes nothing. *)
Lemma engine_raises_only_on_bad_index_witness :
  ~ (- 3 <= 3 < 3)%Z /\
  update_performance true (lit 2)
    (set_current_difficulty_index 3 __init__ : AdaptiveEngine float)
  = (Raise IndexError, set_current_difficulty_index 3 __init__).
Proof.
  assert (~ (- 3 <= 3 < 3)%Z) as Hout by lia.
  split; [exact Hout|].
  exact (proj1 (proj2 (engine_raises_only_on_bad_index
                         (set_current_difficulty_index 3 __init__
                            : AdaptiveEngine float) true (lit 2)) Hout)).
Defined.

(** X7 in binary64, after four quick answers and an incorrect one: the
    engine is at Medium with a score between the thresholds. *)
Lemma no_transition_left_pending_witness :
  no_pending_transition
    (after [quick; quick; quick; quick; wrong] : AdaptiveEngine float) /\
  current_difficulty_index
    (after [quick; quick; quick; quick; wrong] : AdaptiveEngine float) = 1%Z.
Proof.
  split; [|reflexivity].
  exact (no_transition_left_pending (F := float)
           [quick; quick; quick; quick; wrong]).
Defined.

(** X10 at the initial engine and three quick answers: still Easy. *)
Lemma level_up_takes_four_calls_witness :
  well_formed (__init__ : AdaptiveEngine Q) /\
  (p_score (__init__ : AdaptiveEngine Q) <= 0)%Q /\
  (current_difficulty_index
     (snd (session [quick; quick; quick] (__init__ : AdaptiveEngine Q)))
   <= 0)%Z.
Proof.
  assert (p_score (__init__ : AdaptiveEngine Q) <= 0)%Q as Hp
    by (vm_compute; discriminate).
  split; [apply well_formed_init|]. split; [exact Hp|].
  apply (level_up_takes_four_calls __init__ [quick; quick; quick]
           well_formed_init Hp).
  simpl. lia.
Defined.

(** X11 at the initial engine: four answers after 2 seconds reach Medium. *)
Lemma four_quick_answers_raise_the_level_witness :
  well_formed (__init__ : AdaptiveEngine Q) /\
  current_difficulty_index
    (snd (session [(true, 2%Q); (true, 2%Q); (true, 2%Q); (true, 2%Q)]
            (__init__ : AdaptiveEngine Q)))
  = 1%Z.
Proof.
  split; [apply well_formed_init|].
  apply (four_quick_answers_raise_the_level __init__ 2 2 2 2
           well_formed_init);
    simpl; try lia; vm_compute; discriminate.
Defined.

(** X12 at the engine four quick answers leave (Medium, 0.0): three
    incorrect answers bring it back to Easy. *)
Lemma three_wrong_answers_lower_the_level_witness :
  well_formed (after [quick; quick; quick; quick] : AdaptiveEngine Q) /\
  (current_difficulty_index
     (snd (session [(false, 1%Q); (false, 1%Q); (false, 1%Q)]
             (after [quick; quick; quick; quick] : AdaptiveEngine Q)))
   <= 0)%Z.
Proof.
  assert (well_formed (after [quick; quick; quick; quick] : AdaptiveEngine Q))
    as Hwf by apply after_well_formed.
  split; [exact Hwf|].
  apply (three_wrong_answers_lower_the_level _ 1 1 1 Hwf).
  - vm_compute. reflexivity.
  - vm_compute. discriminate.
Defined.

(** ** The performance tracker *)

Section TrackerProperties.

Import PerformanceTracker.

Context {F : Type} `{PyFloat F} `{!PyStatistics F}.
Implicit Types (w : world F) (l : list (Attempt F)).

Lemma raising_bind_done {S A B} (m : raising S A) (k : A -> raising S B)
    (s s1 : S) (a : A) :
  m s = (Done a, s1) -> (m ≫= k) s = k a s1.
Proof. unfold mbind, raising_bind. now intros ->. Qed.

Lemma raising_bind_failed {S A B} (m : raising S A) (k : A -> raising S B)
    (s s1 : S) (e : py_error) :
  m s = (Failed e, s1) -> (m ≫= k) s = (Failed e, s1).
Proof. unfold mbind, raising_bind. now intros ->. Qed.

Lemma sum_ints_ones {A} (l : list A) :
  sum_ints (map (fun _ => 1%Z) l) = Z.of_nat (List.length l).
Proof.
  unfold sum_ints.
  assert (forall acc : Z,
            fold_left Z.add (map (fun _ : A => 1%Z) l) acc
            = (acc + Z.of_nat (List.length l))%Z) as Hacc.
  { induction l as [|x l IH]; intros acc; cbn [map fold_left List.length].
    - lia.
    - rewrite IH. lia. }
  rewrite Hacc. lia.
Qed.

Lemma count_ones_length {A} (test : A -> bool) (l : list A) :
  count_ones test l = Z.of_nat (List.length (List.filter test l)).
Proof. unfold count_ones. apply sum_ints_ones. Qed.

Lemma count_ones_bounds {A} (test : A -> bool) (l : list A) :
  (0 <= count_ones test l <= Z.of_nat (List.length l))%Z.
Proof.
  rewrite count_ones_length.
  pose proof (List.filter_length_le test l). lia.
Qed.

Lemma self_attr_run {A} (field : PerformanceTracker F -> A) w :
  self_attr field w = (Done (field (snd w)), w).
Proof. reflexivity. Qed.

(** The two recording methods, run. *)
Lemma record_attempt_run (puzzle : PuzzleGenerator.Puzzle) (answer : Z)
    (rt : F) (ok : bool) (status : Status F) w :
  record_attempt puzzle answer rt ok status w =
    (Done tt,
     ({| readings := readings (fst w); reads := S (reads (fst w)) |},
      {| session_start := session_start (snd w);
         attempts :=
           attempts (snd w) ++
           [{| timestamp :=
                 (readings (fst w) (reads (fst w)) - session_start (snd w))%py;
               question := PuzzleGenerator.question puzzle;
               correct_answer := PuzzleGenerator.answer puzzle;
               user_answer := answer;
               response_time := rt;
               is_correct := ok;
               difficulty := PuzzleGenerator.difficulty puzzle;
               p_score_after := status_p_score status;
               attempt_number :=
                 (Z.of_nat (List.length (attempts (snd w))) + 1)%Z |}];
         difficulty_transitions := difficulty_transitions (snd w) |})).
Proof. reflexivity. Qed.

Lemma record_difficulty_transition_run (old new : string) (p : F) (n : Z) w :
  record_difficulty_transition old new p n w =
    (Done tt,
     ({| readings := readings (fst w); reads := S (reads (fst w)) |},
      {| session_start := session_start (snd w);
         attempts := attempts (snd w);
         difficulty_transitions :=
           difficulty_transitions (snd w) ++
           [{| at_attempt_number := n;
               from_difficulty := old;
               to_difficulty := new;
               trigger_p_score := p;
               at_timestamp :=
                 (readings (fst w) (reads (fst w))
                  - session_start (snd w))%py |}] |})).
Proof. reflexivity. Qed.

(** The two queries never write to the tracker, whether they return or
    raise; the recent-performance query does not read the clock either. *)
Lemma get_recent_performance_frame (last_n : Z) w :
  snd (get_recent_performance last_n w) = w.
Proof.
  unfold get_recent_performance.
  rewrite (raising_bind_done _ _ _ _ _ (self_attr_run attempts w)).
  destruct (if (_ <? _)%Z then _ else _) as [|a window]; [reflexivity|].
  unfold mbind, raising_bind, evaluate.
  destruct (int_truediv _ _); reflexivity.
Qed.

Lemma get_session_summary_frame w :
  snd (snd (get_session_summary w)) = snd w.
Proof.
  unfold get_session_summary.
  rewrite (raising_bind_done _ _ _ _ _ (self_attr_run attempts w)).
  destruct (attempts (snd w)) as [|a l]; [reflexivity|].
  unfold mbind, raising_bind, evaluate, self_attr, read, time_time.
  repeat match goal with
  | |- context [match ?x with Done _ => _ | Failed _ => _ end] =>
      destruct x; cbn [fst snd]
  | |- context [let (_, _) := (?x, _) in _] => cbn [fst snd]
  end; reflexivity.
Qed.

(** What a call leaves of the tracker. *)
Lemma tracker_step_log w (call : tracker_call F) :
  session_start (snd (tracker_step w call)) = session_start (snd w) /\
  (if is_record_attempt call then
     exists a,
       attempts (snd (tracker_step w call)) = attempts (snd w) ++ [a] /\
       attempt_number a = (Z.of_nat (List.length (attempts (snd w))) + 1)%Z
   else attempts (snd (tracker_step w call)) = attempts (snd w)) /\
  (if is_record_transition call then
     exists tr,
       difficulty_transitions (snd (tracker_step w call))
       = difficulty_transitions (snd w) ++ [tr]
   else difficulty_transitions (snd (tracker_step w call))
        = difficulty_transitions (snd w)).
Proof.
  destruct call as [puzzle answer rt ok status | old new p n | | last_n];
    cbn [tracker_step is_record_attempt is_record_transition].
  - rewrite record_attempt_run. cbn. eauto.
  - rewrite record_difficulty_transition_run. cbn. eauto.
  - rewrite get_session_summary_frame. auto.
  - rewrite get_recent_performance_frame. auto.
Qed.

(** X13.  Whatever calls are made on a new tracker, in whatever order, the
    log holds one attempt per [record_attempt] call, numbered 1, 2, 3, ...
    in the order of the calls, and one transition per
    [record_difficulty_transition] call; the queries add and remove
    nothing, and the session start is the clock reading of [__init__]. *)
Theorem tracker_log_is_numbered (calls : list (tracker_call F))
    (clock : Time F) :
  let self := snd (tracker_run calls clock) in
  map attempt_number (attempts self)
  = map Z.of_nat (seq 1 (List.length (attempts self))) /\
  List.length (attempts self)
  = List.length (List.filter is_record_attempt calls) /\
  List.length (difficulty_transitions self)
  = List.length (List.filter is_record_transition calls) /\
  session_start self = readings clock (reads clock).
Proof.
  unfold tracker_run.
  induction calls as [|call calls IH] using rev_ind.
  - cbn. auto.
  - rewrite fold_left_app. cbn [fold_left].
    set (w := fold_left tracker_step calls (__init__ clock)) in *.
    cbv zeta in IH |- *. destruct IH as (Hnum & Hatt & Htr & Hstart).
    destruct (tracker_step_log w call) as (Es & Ea & Et).
    rewrite !List.filter_app, !List.length_app. cbn [List.filter].
    repeat split.
    + destruct (is_record_attempt call).
      * destruct Ea as (a & -> & Ha).
        rewrite map_app, List.length_app. cbn [map List.length].
        rewrite Nat.add_1_r, seq_S, map_app, Hnum, Ha. cbn [map].
        do 2 f_equal. lia.
      * rewrite Ea. exact Hnum.
    + destruct (is_record_attempt call).
      * destruct Ea as (a & -> & _). rewrite List.length_app. cbn. lia.
      * rewrite Ea. cbn. lia.
    + destruct (is_record_transition call).
      * destruct Et as (tr & ->). rewrite List.length_app. cbn. lia.
      * rewrite Et. cbn. lia.
    + rewrite Es. exact Hstart.
Qed.

Lemma queries_on_an_empty_log_aux w :
  attempts (snd w) = [] ->
  get_session_summary w = (Done (Error "No attempts recorded"), w) /\
  forall last_n : Z,
    get_recent_performance last_n w = (Done (Error "No recent attempts"), w).
Proof.
  intros Hempty. split; [|intros last_n].
  - unfold get_session_summary.
    rewrite (raising_bind_done _ _ _ _ _ (self_attr_run attempts w)).
    now rewrite Hempty.
  - unfold get_recent_performance.
    rewrite (raising_bind_done _ _ _ _ _ (self_attr_run attempts w)).
    rewrite Hempty. unfold py_slice_from. rewrite skipn_nil.
    now destruct (_ <? _)%Z.
Qed.

(** X14.  On a log without attempts both queries return their error
    dictionary, whatever [last_n] is, and touch neither the tracker nor the
    clock. *)
Theorem queries_on_an_empty_log w (last_n : Z) :
  attempts (snd w) = [] ->
  get_session_summary w = (Done (Error "No attempts recorded"), w) /\
  get_recent_performance last_n w = (Done (Error "No recent attempts"), w).
Proof.
  intros Hempty.
  destruct (queries_on_an_empty_log_aux w Hempty) as [Hsummary Hrecent].
  split; [exact Hsummary | apply Hrecent].
Qed.

(** The window of the code is the window told from the end of the log. *)
Lemma window_is_recent_window {A} (l : list A) (last_n : Z) :
  (if (Z.of_nat (List.length l) <? last_n)%Z then l
   else py_slice_from l (- last_n))
  = recent_window l last_n.
Proof.
  unfold recent_window, py_slice_from. cbv zeta.
  set (n := List.length l).
  destruct (Z.of_nat n <? last_n)%Z eqn:Eshort;
    destruct (0 <? last_n)%Z eqn:Epos; try lia.
  - rewrite Z.min_r by lia. rewrite Nat2Z.id, Nat.sub_diag. reflexivity.
  - destruct (- last_n <? 0)%Z eqn:Eneg; [|lia].
    rewrite Z.min_l by lia. f_equal. lia.
  - destruct (- last_n <? 0)%Z eqn:Eneg; [lia|].
    destruct (Z.le_gt_cases (- last_n) (Z.of_nat n)) as [Hle | Hgt].
    + now rewrite Z.min_l by lia.
    + rewrite Z.min_r by lia. rewrite Nat2Z.id.
      rewrite !skipn_all2; [reflexivity | subst n; lia | subst n; lia].
Qed.

(** X15.  When [get_recent_performance] returns, it has looked at the last
    [last_n] attempts of the log, or at all of them when there are fewer;
    for [last_n = 0] it has looked at the whole log, and for a negative
    [last_n] at all but the first [- last_n].  It reports the error
    dictionary exactly when that window is empty, and otherwise the size of
    the window and the number of correct attempts in it; it changes neither
    the tracker nor the clock. *)
Theorem recent_performance_window w (last_n : Z) out w' :
  get_recent_performance last_n w = (Done out, w') ->
  let window := recent_window (attempts (snd w)) last_n in
  w' = w /\
  match out with
  | Error e => e = "No recent attempts" /\ window = []
  | Report r =>
      window <> [] /\
      attempts_analyzed r = Z.of_nat (List.length window) /\
      recent_correct r
      = Z.of_nat (List.length (List.filter is_correct window)) /\
      (0 <= recent_correct r <= attempts_analyzed r)%Z
  end.
Proof.
  intros Hrun window.
  pose proof (get_recent_performance_frame last_n w) as Hframe.
  rewrite Hrun in Hframe. cbn [snd] in Hframe. split; [exact Hframe|].
  revert Hrun. unfold get_recent_performance.
  rewrite (raising_bind_done _ _ _ _ _ (self_attr_run attempts w)).
  rewrite window_is_recent_window. fold window.
  destruct window as [|a rest] eqn:Ewin.
  - intros [= <- _]. auto.
  - unfold mbind, raising_bind, evaluate.
    destruct (int_truediv _ _) as [x|e]; [|discriminate].
    intros [= <- _]. cbn [attempts_analyzed recent_correct].
    split; [discriminate|]. split; [reflexivity|].
    rewrite count_ones_length. split; [reflexivity|].
    pose proof (List.filter_length_le is_correct (a :: rest)) as Hle.
    cbn [List.length] in Hle. lia.
Qed.

(** The loop over the difficulties, from any dictionary. *)
Lemma count_difficulties_from (l : list (Attempt F)) (d : string)
    (counts : gmap string Z) :
  fold_left
    (fun counts attempt =>
       let diff := difficulty attempt in
       <[diff := (default 0%Z (counts !! diff) + 1)%Z]> counts)
    l counts !! d
  = match List.length (attempts_at d l) with
    | O => counts !! d
    | S k => Some (default 0%Z (counts !! d) + Z.of_nat (S k))%Z
    end.
Proof.
  revert counts. induction l as [|a l IH]; intros counts; [reflexivity|].
  cbn [fold_left]. rewrite IH. unfold attempts_at. cbn [List.filter].
  cbv zeta.
  destruct (String.eqb_spec (difficulty a) d) as [-> | Hne].
  - rewrite lookup_insert_eq. cbn [List.length default]. unfold id.
    destruct (List.length (List.filter _ l)) as [|k];
      apply (f_equal Some); lia.
  - rewrite (lookup_insert_ne _ _ _ _ Hne). reflexivity.
Qed.

Lemma count_ones_map {A B} (f : A -> B) (test : B -> bool) (l : list A) :
  count_ones test (map f l) = how_many (fun a => test (f a)) l.
Proof.
  unfold how_many. rewrite count_ones_length. do 2 f_equal.
  induction l as [|a l IH]; [reflexivity|].
  cbn [map List.filter]. destruct (test (f a)); cbn [List.length]; congruence.
Qed.

(** What [get_session_summary] returns on a log with attempts, when none of
    its operations raises. *)
Lemma get_session_summary_run w a l :
  attempts (snd w) = a :: l ->
  let recorded := a :: l in
  forall accuracy n average fast_rate lowest highest,
  int_truediv (how_many is_correct recorded) (Z.of_nat (List.length recorded))
  = Done accuracy ->
  float_of_int (Z.of_nat (List.length recorded)) = Done n ->
  float_truediv (fsum (map response_time recorded)) n = Done average ->
  int_truediv (how_many (fun a => (response_time a <=? lit 5)%py) recorded)
    (Z.of_nat (List.length recorded)) = Done fast_rate ->
  py_min (map p_score_after recorded) = Done lowest ->
  py_max (map p_score_after recorded) = Done highest ->
  get_session_summary w
  = (Done (Report
       {| total_attempts := Z.of_nat (List.length recorded);
          correct_attempts := how_many is_correct recorded;
          accuracy_rate := py_round (accuracy * lit 100)%py 1;
          avg_response_time := py_round average 2;
          fast_responses :=
            how_many (fun a => (response_time a <=? lit 5)%py) recorded;
          fast_response_rate := py_round (fast_rate * lit 100)%py 1;
          difficulty_distribution := count_difficulties recorded;
          n_difficulty_transitions :=
            Z.of_nat (List.length (difficulty_transitions (snd w)));
          final_p_score :=
            py_round (List.last (map p_score_after recorded) (lit 0)) 2;
          p_score_range_min := py_round lowest 2;
          p_score_range_max := py_round highest 2;
          session_duration :=
            py_round (readings (fst w) (reads (fst w))
                      - session_start (snd w))%py 1 |}),
     ({| readings := readings (fst w); reads := S (reads (fst w)) |}, snd w)).
Proof.
  intros Hlog recorded accuracy n average fast_rate lowest highest
    Hacc Hn Havg Hfast Hlow Hhigh.
  unfold get_session_summary.
  rewrite (raising_bind_done _ _ _ _ _ (self_attr_run attempts w)).
  rewrite Hlog. fold recorded. cbv zeta.
  rewrite count_ones_length. fold (how_many is_correct recorded).
  rewrite count_ones_map, List.length_map.
  unfold mbind, raising_bind, evaluate, self_attr, read, time_time, mret,
    raising_ret.
  rewrite Hacc, Hn, Havg, Hfast, Hlow, Hhigh. reflexivity.
Qed.

(** X16.  When [get_session_summary] returns the statistics, the log has
    attempts; [total_attempts] is their number, [correct_attempts] the
    number of those flagged correct, [fast_responses] the number of those
    with a response time of at most 5.0, and [difficulty_transitions] the
    number of recorded transitions; the tracker is left as it was and the
    clock has been read once. *)
Theorem session_summary_counts w s w' :
  get_session_summary w = (Done (Report s), w') ->
  let recorded := attempts (snd w) in
  recorded <> [] /\
  total_attempts s = Z.of_nat (List.length recorded) /\
  correct_attempts s = how_many is_correct recorded /\
  fast_responses s
  = how_many (fun a => (response_time a <=? lit 5)%py) recorded /\
  (0 <= correct_attempts s <= total_attempts s)%Z /\
  (0 <= fast_responses s <= total_attempts s)%Z /\
  n_difficulty_transitions s
  = Z.of_nat (List.length (difficulty_transitions (snd w))) /\
  snd w' = snd w /\
  reads (fst w') = S (reads (fst w)).
Proof.
  intros Hrun recorded. subst recorded.
  destruct (attempts (snd w)) as [|a l] eqn:Hlog.
  - destruct (queries_on_an_empty_log_aux w Hlog) as [E _].
    rewrite E in Hrun. discriminate.
  - revert Hrun.
    destruct (int_truediv (how_many is_correct (a :: l))
                (Z.of_nat (List.length (a :: l)))) as [accuracy|e] eqn:Hacc.
    2: { unfold get_session_summary.
         rewrite (raising_bind_done _ _ _ _ _ (self_attr_run attempts w)).
         rewrite Hlog. cbv zeta. rewrite count_ones_length.
         fold (how_many is_correct (a :: l)).
         unfold mbind at 1, raising_bind at 1, evaluate at 1.
         rewrite Hacc. discriminate. }
    destruct (float_of_int (Z.of_nat (List.length (a :: l))))
      as [n|e] eqn:Hn.
    2: { unfold get_session_summary.
         rewrite (raising_bind_done _ _ _ _ _ (self_attr_run attempts w)).
         rewrite Hlog. cbv zeta. rewrite count_ones_length.
         fold (how_many is_correct (a :: l)). rewrite List.length_map.
         unfold mbind, raising_bind, evaluate.
         rewrite Hacc, Hn. discriminate. }
    destruct (float_truediv (fsum (map response_time (a :: l))) n)
      as [average|e] eqn:Havg.
    2: { unfold get_session_summary.
         rewrite (raising_bind_done _ _ _ _ _ (self_attr_run attempts w)).
         rewrite Hlog. cbv zeta. rewrite count_ones_length.
         fold (how_many is_correct (a :: l)). rewrite List.length_map.
         unfold mbind, raising_bind, evaluate.
         rewrite Hacc, Hn, Havg. discriminate. }
    destruct (int_truediv
                (how_many (fun a => (response_time a <=? lit 5)%py) (a :: l))
                (Z.of_nat (List.length (a :: l)))) as [fast_rate|e] eqn:Hfast.
    2: { unfold get_session_summary.
         rewrite (raising_bind_done _ _ _ _ _ (self_attr_run attempts w)).
         rewrite Hlog. cbv zeta. rewrite count_ones_length.
         fold (how_many is_correct (a :: l)).
         rewrite count_ones_map, List.length_map.
         unfold mbind, raising_bind, evaluate.
         rewrite Hacc, Hn, Havg, Hfast. discriminate. }
    rewrite (get_session_summary_run w a l Hlog _ _ _ _ _ _
               Hacc Hn Havg Hfast eq_refl eq_refl).
    intros [= <- <-].
    cbn [total_attempts correct_attempts fast_responses
         n_difficulty_transitions fst snd reads].
    unfold how_many.
    pose proof (List.filter_length_le is_correct (a :: l)) as Hc.
    pose proof (List.filter_length_le
                  (fun a => (response_time a <=? lit 5)%py) (a :: l)) as Hf.
    cbn [List.length] in Hc, Hf |- *.
    repeat split; try reflexivity; try discriminate; lia.
Qed.

(** X17.  In the statistics [get_session_summary] returns, a difficulty is
    a key of [difficulty_distribution] exactly when some attempt of the log
    was made at it, and its value is the number of those attempts. *)
Theorem difficulty_distribution_counts w s w' (d : string) :
  get_session_summary w = (Done (Report s), w') ->
  difficulty_distribution s !! d
  = match List.length (attempts_at d (attempts (snd w))) with
    | O => None
    | S k => Some (Z.of_nat (S k))
    end.
Proof.
  intros Hrun.
  assert (difficulty_distribution s = count_difficulties (attempts (snd w)))
    as ->.
  { revert Hrun. unfold get_session_summary.
    rewrite (raising_bind_done _ _ _ _ _ (self_attr_run attempts w)).
    destruct (attempts (snd w)) as [|a l]; [discriminate|].
    unfold mbind, raising_bind, evaluate, self_attr, read, time_time, mret,
      raising_ret. cbv zeta.
    repeat lazymatch goal with
    | |- context [match ?x with Done _ => _ | Failed _ => _ end] =>
        destruct x; [|discriminate]
    end.
    now intros [= <- _]. }
  unfold count_difficulties. rewrite count_difficulties_from.
  rewrite lookup_empty. reflexivity.
Qed.

End TrackerProperties.

(** ** The statistics in exact arithmetic *)

Lemma inject_Z_pos (z : Z) : (0 < z)%Z -> (0 < inject_Z z)%Q.
Proof. intros Hz. unfold Qlt, inject_Z. cbn. lia. Qed.

Lemma round_half_even_comp (q1 q2 : Q) :
  (q1 == q2)%Q -> round_half_even q1 = round_half_even q2.
Proof.
  intros E. unfold round_half_even.
  rewrite (Qfloor_comp _ _ E).
  assert (q1 - inject_Z (Qfloor q2) == q2 - inject_Z (Qfloor q2))%Q as E'
    by (rewrite E; reflexivity).
  now rewrite (Qcompare_comp _ _ E' _ _ (Qeq_refl (1 # 2))).
Qed.

Lemma round_half_even_mono (q1 q2 : Q) :
  (q1 <= q2)%Q -> (round_half_even q1 <= round_half_even q2)%Z.
Proof.
  intros Hle.
  destruct (Z.le_gt_cases (round_half_even q1) (round_half_even q2))
    as [Hok | Hgt]; [exact Hok | exfalso].
  pose proof (round_half_even_close q1) as H1.
  pose proof (round_half_even_close q2) as H2.
  assert (round_half_even q2 + 1 <= round_half_even q1)%Z as Hstep by lia.
  rewrite Zle_Qle, inject_Z_plus in Hstep.
  change (inject_Z 1) with 1%Q in Hstep.
  assert (q1 == q2)%Q as E by lra.
  apply round_half_even_comp in E. lia.
Qed.

Lemma round_half_even_Z (z : Z) : round_half_even (inject_Z z) = z.
Proof.
  unfold round_half_even. rewrite Qfloor_Z.
  assert (Qcompare (inject_Z z - inject_Z z) (1 # 2) = Lt) as ->;
    [|reflexivity].
  apply (proj1 (Qlt_alt _ _)). generalize (inject_Z z). intros x. lra.
Qed.

Lemma Q_round_mono (q1 q2 : Q) (ndigits : N) :
  (q1 <= q2)%Q -> (Q_round q1 ndigits <= Q_round q2 ndigits)%Q.
Proof.
  intros Hle. unfold Q_round. rewrite !Qred_correct.
  assert (0 < 10 ^ Z.of_N ndigits)%Z as Hp by (apply Z.pow_pos_nonneg; lia).
  set (p := (10 ^ Z.of_N ndigits)%Z) in *.
  assert (0 < inject_Z p)%Q as Hq by (apply inject_Z_pos; exact Hp).
  apply Qmult_le_compat_r.
  - rewrite <- Zle_Qle. apply round_half_even_mono.
    apply Qmult_le_compat_r; [exact Hle | lra].
  - apply Qinv_le_0_compat. lra.
Qed.

Lemma Q_round_Z (z : Z) (ndigits : N) :
  (Q_round (inject_Z z) ndigits == inject_Z z)%Q.
Proof.
  unfold Q_round. rewrite Qred_correct.
  assert (0 < 10 ^ Z.of_N ndigits)%Z as Hp by (apply Z.pow_pos_nonneg; lia).
  set (p := (10 ^ Z.of_N ndigits)%Z) in *.
  rewrite (round_half_even_comp _ (inject_Z (z * p)))
    by (rewrite inject_Z_mult; reflexivity).
  rewrite round_half_even_Z, inject_Z_mult.
  assert (0 < inject_Z p)%Q as Hq by (apply inject_Z_pos; exact Hp).
  field. lra.
Qed.

Lemma Q_round_between (q : Q) (lo hi : Z) (ndigits : N) :
  (inject_Z lo <= q <= inject_Z hi)%Q ->
  (inject_Z lo <= Q_round q ndigits <= inject_Z hi)%Q.
Proof.
  intros [Hlo Hhi]. split.
  - rewrite <- (Q_round_Z lo ndigits). now apply Q_round_mono.
  - rewrite <- (Q_round_Z hi ndigits). now apply Q_round_mono.
Qed.

(** A share of a count, as a percentage. *)
Lemma share_bounds (c n : Z) :
  (0 <= c <= n)%Z -> (0 < n)%Z ->
  (0 <= inject_Z c / inject_Z n * 100 <= 100)%Q.
Proof.
  intros [H0 Hc] Hn.
  rewrite Zle_Qle in H0, Hc. rewrite Zlt_Qlt in Hn.
  change (inject_Z 0) with 0%Q in *.
  assert (0 <= inject_Z c / inject_Z n <= 1)%Q as [Hlo Hhi].
  { split.
    - apply Qle_shift_div_l; [exact Hn | lra].
    - apply Qle_shift_div_r; [exact Hn | lra]. }
  lra.
Qed.

Section TrackerExact.

Import PerformanceTracker.

(** [min] and [max] bound every item of the list. *)
Lemma py_min_is_lower (rest : list Q) (x : Q) :
  let m := fold_left (fun m y => if (y <? m)%py then y else m) rest x in
  (m <= x)%Q /\ forall y, In y rest -> (m <= y)%Q.
Proof.
  revert x. induction rest as [|z rest IH]; intros x; cbn [fold_left].
  - split; [lra | intros y []].
  - cbv zeta in IH |- *. cbn [fltb PyFloat_Q].
    destruct (Qle_bool x z) eqn:E; cbn [negb].
    + apply Qle_bool_iff in E. destruct (IH x) as [Hx Hrest].
      split; [exact Hx|].
      intros y [<- | Hy]; [exact (Qle_trans _ _ _ Hx E) | now apply Hrest].
    + assert (z <= x)%Q as Hlt.
      { apply Qlt_le_weak, Qnot_le_lt. intros Hle.
        apply Qle_bool_iff in Hle. congruence. }
      destruct (IH z) as [Hz Hrest].
      split; [exact (Qle_trans _ _ _ Hz Hlt)|].
      intros y [<- | Hy]; [exact Hz | now apply Hrest].
Qed.

Lemma py_max_is_upper (rest : list Q) (x : Q) :
  let m := fold_left (fun m y => if (m <? y)%py then y else m) rest x in
  (x <= m)%Q /\ forall y, In y rest -> (y <= m)%Q.
Proof.
  revert x. induction rest as [|z rest IH]; intros x; cbn [fold_left].
  - split; [lra | intros y []].
  - cbv zeta in IH |- *. cbn [fltb PyFloat_Q].
    destruct (Qle_bool z x) eqn:E; cbn [negb].
    + apply Qle_bool_iff in E. destruct (IH x) as [Hx Hrest].
      split; [exact Hx|].
      intros y [<- | Hy]; [exact (Qle_trans _ _ _ E Hx) | now apply Hrest].
    + assert (x <= z)%Q as Hlt.
      { apply Qlt_le_weak, Qnot_le_lt. intros Hle.
        apply Qle_bool_iff in Hle. congruence. }
      destruct (IH z) as [Hz Hrest].
      split; [exact (Qle_trans _ _ _ Hlt Hz)|].
      intros y [<- | Hy]; [exact Hz | now apply Hrest].
Qed.

Lemma last_in_cons {A} (l : list A) (x d : A) : In (List.last (x :: l) d) (x :: l).
Proof.
  revert x. induction l as [|y l IH]; intros x; [now left|].
  right. apply (IH y).
Qed.

(** X18.  In exact arithmetic [get_session_summary] returns the statistics
    of every log with attempts: no division fails.  The two rates are
    percentages between 0 and 100, and the final score lies between the
    reported minimum and maximum of the scores. *)
Theorem session_summary_exact (w : world Q) :
  attempts (snd w) <> [] ->
  exists s,
    get_session_summary w
    = (Done (Report s),
       ({| readings := readings (fst w); reads := S (reads (fst w)) |},
        snd w)) /\
    (0 <= accuracy_rate s <= 100)%Q /\
    (0 <= fast_response_rate s <= 100)%Q /\
    (p_score_range_min s <= final_p_score s <= p_score_range_max s)%Q.
Proof.
  intros Hlog. destruct (attempts (snd w)) as [|a l] eqn:E; [congruence|].
  clear Hlog.
  set (n := Z.of_nat (List.length (a :: l))).
  assert (forall c : Z, int_truediv c n = Done (inject_Z c / inject_Z n)%Q)
    as Hdiv by reflexivity.
  assert (float_truediv (fsum (map response_time (a :: l))) (inject_Z n)
          = Done (fsum (map response_time (a :: l)) / inject_Z n)%Q) as Havg.
  { cbn [float_truediv PyStatistics_Q].
    destruct (Qeq_bool _ 0) eqn:Ez; [|reflexivity].
    apply Qeq_bool_iff in Ez. exfalso. revert Ez.
    unfold Qeq, inject_Z. cbn. subst n. cbn [List.length]. lia. }
  eexists. split.
  - exact (get_session_summary_run w a l E _ _ _ _ _ _
             (Hdiv _) eq_refl Havg (Hdiv _) eq_refl eq_refl).
  - cbn [accuracy_rate fast_response_rate p_score_range_min final_p_score
         p_score_range_max py_round PyFloat_Q fmul lit].
    assert (forall test : Attempt Q -> bool,
              (0 <= how_many test (a :: l)
               <= Z.of_nat (List.length (a :: l)))%Z) as Hshare.
    { intros test. unfold how_many.
      pose proof (List.filter_length_le test (a :: l)). lia. }
    assert (0 < Z.of_nat (List.length (a :: l)))%Z as Hn by (cbn; lia).
    split; [|split].
    + apply (Q_round_between _ 0 100).
      apply share_bounds; [apply Hshare | exact Hn].
    + apply (Q_round_between _ 0 100).
      apply share_bounds; [apply Hshare | exact Hn].
    + cbn [map].
      pose proof (last_in_cons (map p_score_after l) (p_score_after a) 0%Q)
        as Hin.
      destruct (py_min_is_lower (map p_score_after l) (p_score_after a))
        as [Hlo Hlos].
      destruct (py_max_is_upper (map p_score_after l) (p_score_after a))
        as [Hhi His].
      split; apply Q_round_mono.
      * destruct Hin as [<- | Hin]; [exact Hlo | now apply Hlos].
      * destruct Hin as [<- | Hin]; [exact Hhi | now apply His].
Qed.

(** X19.  In exact arithmetic [get_recent_performance] returns for every
    log and every [last_n]; the trend it reports is "improving" exactly
    when more than three fifths of the attempts it analyzed are correct,
    and "struggling" otherwise. *)
Theorem recent_trend_exact (w : world Q) (last_n : Z) :
  exists out,
    get_recent_performance last_n w = (Done out, w) /\
    forall r, out = Report r ->
      (trend r = "improving" <->
       (3 * attempts_analyzed r < 5 * recent_correct r)%Z) /\
      (trend r <> "improving" -> trend r = "struggling") /\
      (0 <= recent_accuracy r <= 100)%Q.
Proof.
  unfold get_recent_performance.
  rewrite (raising_bind_done _ _ _ _ _ (self_attr_run attempts w)).
  rewrite window_is_recent_window.
  destruct (recent_window _ _) as [|a rest].
  - eexists. split; [reflexivity | discriminate].
  - set (window := a :: rest). rewrite count_ones_length.
    fold (how_many is_correct window).
    assert (0 <= how_many is_correct window
            <= Z.of_nat (List.length window))%Z as Hshare.
    { unfold how_many.
      pose proof (List.filter_length_le is_correct window). lia. }
    assert (0 < Z.of_nat (List.length window))%Z as Hn by (cbn; lia).
    set (c := how_many is_correct window) in *.
    set (n := Z.of_nat (List.length window)) in *.
    unfold mbind, raising_bind, evaluate, mret, raising_ret.
    cbn [int_truediv PyStatistics_Q].
    destruct (Z.eqb_spec n 0) as [Hz | _]; [lia|].
    eexists. split; [reflexivity|].
    intros r [= <-].
    cbn [trend attempts_analyzed recent_correct recent_accuracy].
    cbn [fltb lit fmul py_round PyFloat_Q].
    assert (Qle_bool (inject_Z c / inject_Z n) (6 # 10) = true
            <-> (5 * c <= 3 * n)%Z) as Hcmp.
    { rewrite Qle_bool_iff. rewrite Zlt_Qlt in Hn.
      change (inject_Z 0) with 0%Q in Hn.
      rewrite Zle_Qle, !inject_Z_mult.
      change (inject_Z 5) with 5%Q. change (inject_Z 3) with 3%Q.
      split; intros Hle.
      - assert (inject_Z c == inject_Z c / inject_Z n * inject_Z n)%Q as ->
          by (field; lra).
        assert (inject_Z c / inject_Z n * inject_Z n
                <= (6 # 10) * inject_Z n)%Q
          by (apply Qmult_le_compat_r; [exact Hle | lra]).
        lra.
      - apply Qle_shift_div_r; [exact Hn | lra]. }
    split; [|split].
    + destruct (Qle_bool _ _); cbn [negb]; split; intros Hi;
        try discriminate; try reflexivity.
      * destruct Hcmp as [Hcmp _]. specialize (Hcmp eq_refl). lia.
      * destruct (Z.le_gt_cases (5 * c) (3 * n)) as [Hle | Hgt]; [|lia].
        apply Hcmp in Hle. discriminate.
    + destruct (Qle_bool _ _); cbn [negb]; [reflexivity | congruence].
    + apply (Q_round_between _ 0 100). now apply share_bounds.
Qed.

End TrackerExact.

(** ** The recent performance in binary64 *)

Section TrackerBinary64.

Import PerformanceTracker.

Lemma windows_agree_up_to_20 :
  forallb (fun n => forallb (window_agrees n) (seq 0 (S n))) (seq 1 20)
  = true.
Proof. vm_compute. reflexivity. Qed.

Lemma window_agrees_small (n c : nat) :
  1 <= n <= 20 -> c <= n -> window_agrees n c = true.
Proof.
  intros Hn Hc.
  pose proof windows_agree_up_to_20 as Hall.
  rewrite forallb_forall in Hall.
  specialize (Hall n (proj2 (in_seq 20 1 n) ltac:(lia))).
  rewrite forallb_forall in Hall.
  apply Hall, in_seq. lia.
Qed.

Lemma recent_window_length {A} (l : list A) (last_n : Z) :
  (0 < last_n)%Z ->
  (Z.of_nat (List.length (recent_window l last_n)) <= last_n)%Z.
Proof.
  intros Hpos. unfold recent_window.
  destruct (Z.ltb_spec 0 last_n) as [_ | Hneg]; [|lia].
  rewrite List.length_skipn. lia.
Qed.

(** X20.  On binary64 floats, for a window of at most 20 attempts (the
    default is 5), [get_recent_performance] returns and agrees with exact
    arithmetic: the trend is "improving" exactly when more than three
    fifths of the analyzed attempts are correct, and [recent_accuracy] is
    the double nearest to the exactly computed percentage. *)
Theorem recent_performance_binary64 (w : world float) (last_n : Z) :
  (0 < last_n <= 20)%Z ->
  exists out,
    get_recent_performance last_n w = (Done out, w) /\
    forall r, out = Report r ->
      (trend r = "improving" <->
       (3 * attempts_analyzed r < 5 * recent_correct r)%Z) /\
      recent_accuracy r
      = lit (Q_round (inject_Z (recent_correct r)
                      / inject_Z (attempts_analyzed r) * 100) 1).
Proof.
  intros [Hpos Hmax].
  pose proof (recent_window_length (attempts (snd w)) last_n Hpos) as Hlen.
  unfold get_recent_performance.
  rewrite (raising_bind_done _ _ _ _ _ (self_attr_run attempts w)).
  rewrite window_is_recent_window.
  destruct (recent_window _ _) as [|a rest].
  - eexists. split; [reflexivity | discriminate].
  - set (window := a :: rest) in *. rewrite count_ones_length.
    pose proof (List.filter_length_le is_correct window) as Hc.
    set (c := List.length (List.filter is_correct window)) in *.
    assert (1 <= List.length window <= 20) as Hn by (cbn in *; lia).
    set (n := List.length window) in *.
    pose proof (window_agrees_small n c Hn Hc) as Hok.
    unfold window_agrees in Hok.
    unfold mbind, raising_bind, evaluate, mret, raising_ret.
    destruct (int_truediv (Z.of_nat c) (Z.of_nat n)) as [x|e];
      [|discriminate].
    apply andb_prop in Hok. destruct Hok as [Htrend Hround].
    apply Bool.eqb_prop in Htrend. apply bool_decide_eq_true_1 in Hround.
    apply Prim2SF_inj in Hround.
    eexists. split; [reflexivity|].
    intros r [= <-].
    cbn [trend attempts_analyzed recent_correct recent_accuracy].
    split; [|exact Hround].
    change (float_lit (6 # 10) <? x)%float with (lit (6 # 10) <? x)%py.
    rewrite Htrend.
    destruct (Z.ltb_spec (3 * Z.of_nat n) (5 * Z.of_nat c)) as [Hlt | Hge];
      split; intros Hi; try discriminate; try reflexivity; lia.
Qed.

End TrackerBinary64.

(** ** The statistics on the sample log *)

Section TrackerWitnesses.

Import PerformanceTracker.

(** X14 on a new tracker. *)
Lemma queries_on_an_empty_log_witness :
  attempts (snd (__init__ (sample_clock (F := float)))) = [] /\
  get_session_summary (__init__ (sample_clock (F := float)))
  = (Done (Error "No attempts recorded"), __init__ sample_clock) /\
  get_recent_performance 5 (__init__ (sample_clock (F := float)))
  = (Done (Error "No recent attempts"), __init__ sample_clock).
Proof.
  split; [reflexivity|].
  exact (queries_on_an_empty_log (__init__ sample_clock) 5 eq_refl).
Defined.

(** X15 on the sample log: the last two of the three attempts, one of
    them correct. *)
Lemma recent_performance_window_witness :
  exists r,
    get_recent_performance 2 (sample_log (F := Q))
    = (Done (Report r), sample_log) /\
    attempts_analyzed r = 2%Z /\ recent_correct r = 1%Z.
Proof.
  eassert (get_recent_performance 2 (sample_log (F := Q))
           = (Done (Report _), sample_log)) as Hrun
    by (vm_compute; reflexivity).
  eexists. split; [exact Hrun|].
  destruct (recent_performance_window _ _ _ _ Hrun)
    as (_ & _ & Hanalyzed & Hcorrect & _).
  rewrite Hanalyzed, Hcorrect. split; reflexivity.
Defined.

(** X16 on the sample log: three attempts, two correct, two fast, one
    transition. *)
Lemma session_summary_counts_witness :
  exists s w',
    get_session_summary (sample_log (F := Q)) = (Done (Report s), w') /\
    total_attempts s = 3%Z /\ correct_attempts s = 2%Z /\
    fast_responses s = 2%Z /\ n_difficulty_transitions s = 1%Z /\
    snd w' = snd (sample_log (F := Q)).
Proof.
  eassert (get_session_summary (sample_log (F := Q))
           = (Done (Report _), _)) as Hrun
    by (vm_compute; reflexivity).
  eexists _, _. split; [exact Hrun|].
  destruct (session_summary_counts _ _ _ Hrun)
    as (_ & Htotal & Hcorrect & Hfast & _ & _ & Hmoves & Hframe & _).
  rewrite Htotal, Hcorrect, Hfast, Hmoves.
  repeat split; first [reflexivity | exact Hframe].
Defined.

(** X17 on the sample log: two attempts at Easy, none at Hard. *)
Lemma difficulty_distribution_counts_witness :
  exists s w',
    get_session_summary (sample_log (F := Q)) = (Done (Report s), w') /\
    difficulty_distribution s !! "Easy" = Some 2%Z /\
    difficulty_distribution s !! "Hard" = None.
Proof.
  eassert (get_session_summary (sample_log (F := Q))
           = (Done (Report _), _)) as Hrun
    by (vm_compute; reflexivity).
  eexists _, _. split; [exact Hrun|].
  rewrite (difficulty_distribution_counts _ _ _ "Easy" Hrun).
  rewrite (difficulty_distribution_counts _ _ _ "Hard" Hrun).
  split; reflexivity.
Defined.

(** X18 on the sample log. *)
Lemma session_summary_exact_witness :
  attempts (snd (sample_log (F := Q))) <> [] /\
  exists s,
    get_session_summary (sample_log (F := Q))
    = (Done (Report s),
       ({| readings := readings (fst (sample_log (F := Q)));
           reads := S (reads (fst (sample_log (F := Q)))) |},
        snd sample_log)) /\
    (0 <= accuracy_rate s <= 100)%Q /\
    (0 <= fast_response_rate s <= 100)%Q /\
    (p_score_range_min s <= final_p_score s <= p_score_range_max s)%Q.
Proof.
  assert (attempts (snd (sample_log (F := Q))) <> []) as Hlog
    by (vm_compute; discriminate).
  split; [exact Hlog|].
  exact (session_summary_exact sample_log Hlog).
Defined.

(** X20 on the sample log, with the default window of the driver. *)
Lemma recent_performance_binary64_witness :
  (0 < 5 <= 20)%Z /\
  exists out,
    get_recent_performance 5 (sample_log (F := float))
    = (Done out, sample_log) /\
    forall r, out = Report r ->
      (trend r = "improving" <->
       (3 * attempts_analyzed r < 5 * recent_correct r)%Z) /\
      recent_accuracy r
      = lit (Q_round (inject_Z (recent_correct r)
                      / inject_Z (attempts_analyzed r) * 100) 1).
Proof.
  assert (0 < 5 <= 20)%Z as Hwindow by lia.
  split; [exact Hwindow|].
  exact (recent_performance_binary64 sample_log 5 Hwindow).
Defined.

End TrackerWitnesses.

(** ** The simulated responses *)

Section SimulationProperties.

Import PuzzleGenerator Simulation.

Context {F : Type} `{PyFloat F} `{!PyStatistics F} `{!PyTruncate F}.

Implicit Types (g : Random).

Lemma random_run g : random g = (Done (fraction g 0), advance g 1).
Proof. reflexivity. Qed.

Lemma uniform_run (a b : Q) g :
  uniform a b g = (Done (stretch a b (fraction g 0)), advance g 1).
Proof. reflexivity. Qed.

Lemma slip_run g :
  exists slip,
    from_random (choice [(-2)%Z; (-1)%Z; 1%Z; 2%Z]) g
    = (Done slip, advance g 1) /\
    slip <> 0%Z /\ (-2 <= slip <= 2)%Z.
Proof.
  unfold from_random, choice, mbind, method_bind, next_draw.
  pose proof (Nat.mod_upper_bound (N.to_nat (draws g (cursor g))) 4
                ltac:(lia)) as Hlt.
  cbn [List.length].
  destruct (N.to_nat (draws g (cursor g)) mod 4) as [|[|[|[|k]]]];
    [| | | |lia]; cbn [nth_error mret method_ret];
    eexists; (split; [reflexivity | lia]).
Qed.

(** The function, one draw after the other. *)
Lemma simulate_user_response_run (puzzle : Puzzle) (d : string) g :
  let base := stretch (fst (base_range d)) (snd (base_range d))
                (fraction g 0) in
  simulate_user_response puzzle d g
  = if (fraction g 1 <? lit (accuracy_chance d))%py then
      (Done (answer puzzle,
             (base * stretch (7 # 10) 1 (fraction g 2))%py, true),
       advance g 3)
    else if (fraction g 2 <? lit (5 # 10))%py then
      match from_random (choice [(-2)%Z; (-1)%Z; 1%Z; 2%Z]) (advance g 3)
      with
      | (Done slip, _) =>
          (Done ((answer puzzle + slip)%Z,
                 (base * stretch 1 (14 # 10) (fraction g 4))%py, false),
           advance g 5)
      | (Failed e, g') => (Failed e, g')
      end
    else
      match float_of_int (answer puzzle) with
      | Done x =>
          match py_int (x * stretch (5 # 10) (15 # 10) (fraction g 3))%py
          with
          | Done user_answer =>
              (Done (user_answer,
                     (base * stretch 1 (14 # 10) (fraction g 4))%py, false),
               advance g 5)
          | Failed e => (Failed e, advance g 4)
          end
      | Failed e => (Failed e, advance g 4)
      end.
Proof.
  cbv zeta. unfold simulate_user_response, base_range, accuracy_chance.
  destruct (String.eqb d "Easy"); [|destruct (String.eqb d "Medium")];
    cbn [fst snd];
    unfold mbind, raising_bind, mret, raising_ret;
    rewrite !uniform_run; rewrite random_run;
    change (fraction (advance g 1) 0) with (fraction g 1);
    (destruct (fraction g 1 <? _)%py; [reflexivity|]);
    rewrite random_run;
    change (fraction (advance (advance g 1) 1) 0) with (fraction g 2);
    (destruct (fraction g 2 <? _)%py;
     [ destruct (slip_run (advance g 3)) as (slip & Hslip & _);
       change (advance (advance (advance g 1) 1) 1) with (advance g 3);
       rewrite Hslip; reflexivity
     | unfold evaluate; rewrite !uniform_run;
       change (advance (advance (advance g 1) 1) 1) with (advance g 3);
       change (fraction (advance g 3) 0) with (fraction g 3);
       destruct (float_of_int (answer puzzle)) as [x|e]; [|reflexivity];
       destruct (py_int _) as [user_answer|e]; [|reflexivity];
       rewrite !uniform_run; reflexivity ]).
Qed.

(** X21.  When [simulate_user_response] returns, the flag [is_correct]
    tells whether the second draw fell under the chance of the difficulty;
    a response flagged correct carries the answer of the puzzle and has
    used three draws, one flagged incorrect has used five; on the branch of
    the small slips the answer returned is wrong, by 1 or 2. *)
Theorem simulated_flag_and_answer (puzzle : Puzzle) (d : string) g
    (user_answer : Z) (response_time : F) (is_correct : bool) g' :
  simulate_user_response puzzle d g
  = (Done (user_answer, response_time, is_correct), g') ->
  is_correct = (fraction g 1 <? lit (accuracy_chance d))%py /\
  g' = advance g (if is_correct then 3 else 5) /\
  (is_correct = true -> user_answer = answer puzzle) /\
  (is_correct = false ->
   (fraction g 2 <? lit (5 # 10))%py = true ->
   user_answer <> answer puzzle /\
   (-2 <= user_answer - answer puzzle <= 2)%Z).
Proof.
  rewrite simulate_user_response_run. cbv zeta.
  destruct (fraction g 1 <? _)%py.
  - intros [= <- <- <- <-]. repeat split; try reflexivity; discriminate.
  - destruct (fraction g 2 <? _)%py.
    + destruct (slip_run (advance g 3)) as (slip & -> & Hne & Hslip).
      intros [= <- <- <- <-].
      repeat split; try reflexivity; try discriminate; lia.
    + destruct (float_of_int _) as [x|e]; [|discriminate].
      destruct (py_int _) as [ua|e]; [|discriminate].
      intros [= <- <- <- <-].
      repeat split; try reflexivity; discriminate.
Qed.

End SimulationProperties.

Section SimulationExact.

Import PuzzleGenerator Simulation.

Implicit Types (g : Random).

Lemma fraction_unit g (k : nat) :
  (0 <= fraction (F := Q) g k < 1)%Q.
Proof.
  unfold fraction. cbn [lit PyFloat_Q].
  pose proof (N.mod_upper_bound (draws g (k + cursor g)) (2 ^ 53)
                ltac:(discriminate)) as Hlt.
  set (n := (draws g (k + cursor g) mod 2 ^ 53)%N) in *.
  assert (Z.of_N n < 2 ^ 53)%Z as Hz.
  { change (2 ^ 53)%Z with (Z.of_N (2 ^ 53)). lia. }
  unfold Qle, Qlt. cbn [Qnum Qden].
  change (Zpos (2 ^ 53)) with (2 ^ 53)%Z. lia.
Qed.

Lemma stretch_bounds (a b r : Q) :
  (a < b)%Q -> (0 <= r < 1)%Q -> (a <= stretch a b r < b)%Q.
Proof.
  intros Hab [H0 H1]. unfold stretch. cbn [lit fadd fsub fmul PyFloat_Q].
  assert (0 <= (b - a) * r)%Q by (apply Qmult_le_0_compat; lra).
  assert ((b - a) * r < (b - a) * 1)%Q
    by (apply Qmult_lt_l; lra).
  lra.
Qed.

Lemma product_bounds (lo hi flo fhi x y : Q) :
  (0 < lo)%Q -> (0 < flo)%Q ->
  (lo <= x < hi)%Q -> (flo <= y < fhi)%Q ->
  (lo * flo <= x * y < hi * fhi)%Q.
Proof.
  intros Hlo Hflo [Hx1 Hx2] [Hy1 Hy2]. split.
  - apply Qle_trans with (x * flo)%Q.
    + apply Qmult_le_compat_r; lra.
    + rewrite !(Qmult_comm x). apply Qmult_le_compat_r; lra.
  - apply Qle_lt_trans with (x * fhi)%Q.
    + rewrite !(Qmult_comm x). apply Qmult_le_compat_r; lra.
    + apply Qmult_lt_compat_r; lra.
Qed.

Lemma base_range_cases (d : string) :
  base_range d = (2, 6)%Q \/ base_range d = (4, 10)%Q
  \/ base_range d = (6, 15)%Q.
Proof.
  unfold base_range.
  destruct (String.eqb d "Easy"); [|destruct (String.eqb d "Medium")]; auto.
Qed.


End SimulationExact.

(** X21 on the sample generator: its second draw falls under the chance of
    Easy, and the response carries the answer of the puzzle. *)
Lemma simulated_flag_and_answer_witness :
  exists (response_time : Q) g',
    Simulation.simulate_user_response
      {| PuzzleGenerator.question := "3 + 4";
         PuzzleGenerator.answer := 7;
         PuzzleGenerator.difficulty := "Easy" |}
      "Easy" PuzzleGenerator.sample_random
    = (Done (7%Z, response_time, true), g') /\
    g' = advance PuzzleGenerator.sample_random 3.
Proof.
  eassert (Simulation.simulate_user_response (F := Q)
             {| PuzzleGenerator.question := "3 + 4";
                PuzzleGenerator.answer := 7;
                PuzzleGenerator.difficulty := "Easy" |}
             "Easy" PuzzleGenerator.sample_random
           = (Done (7%Z, _, true), _)) as Hrun
    by (vm_compute; reflexivity).
  eexists _, _. split; [exact Hrun|].
  exact (proj1 (proj2 (simulated_flag_and_answer _ _ _ _ _ _ _ Hrun))).
Defined.
